(** * pomodoro_pyterm: the session controller of [main.py]

    A shallow embedding of [TimerThread] and [PomodoroApp] from
    [src/main.py], with the properties of the interactive session stated
    and proved over it.

    Modelling choices, all read off the source:
    - a task is the dict built in [add_task]; its five fixed keys become
      the fields of a record, the status stays the string the code writes;
    - Python integers are [Z]; list indexing follows Python (negative
      indices count from the end, out of range raises [IndexError]);
    - the timer thread is a small-step machine whose program counter
      ranges over the statements of [TimerThread.run]; the interleaving
      with the key loop is a list of events, a key press or one step of
      one thread;
    - text read from the terminal is ASCII; [int] is modelled on such
      text (sign, digits, single underscores between digits, surrounding
      white space);
    - the directory tree read by [visualize_data] is a value with the
      three levels the function lists; what [pd.read_csv] followed by
      [pd.to_datetime] makes of a file is part of that value;
    - the calls into the operating system that the source does not guard
      are taken to succeed: writing the file of the day in [save_to_csv],
      listing a directory that exists in [visualize_data];
    - what a [display_*] method draws is the list of its [addstr] calls,
      in a window whose size is the value of [getmaxyx()]. *)

From Stdlib Require Import ZArith Lia Bool Ascii String Sorted DecimalString.
From stdpp Require Import base list strings.

Local Open Scope string_scope.
Local Open Scope list_scope.
Local Open Scope Z_scope.

(* ===================================================================== *)
(** ** Python helpers *)

Module Py.

(** [l[i]] for a Python list: the position read, [None] when the access
    raises [IndexError]. *)
Definition index (len : nat) (i : Z) : option nat :=
  if (0 <=? i) && (i <? Z.of_nat len) then Some (Z.to_nat i)
  else if (i <? 0) && (0 <=? Z.of_nat len + i) then Some (Z.to_nat (Z.of_nat len + i))
  else None.

Definition getitem {A : Type} (l : list A) (i : Z) : option A :=
  match index (length l) i with
  | Some n => l !! n
  | None => None
  end.

(** White space skipped by [int] around the literal of an ASCII text:
    TAB, LF, VT, FF, CR and the blank. *)
Definition is_space (c : ascii) : bool :=
  let n := Z.of_N (N_of_ascii c) in
  ((9 <=? n) && (n <=? 13)) || (n =? 32).

(** The texts on which [int] is modelled: every character is ASCII. *)
Definition is_ascii (s : string) : bool :=
  forallb (fun c => Z.of_N (N_of_ascii c) <? 128) (list_ascii_of_string s).

Definition digit_val (c : ascii) : option Z :=
  let n := Z.of_N (N_of_ascii c) in
  if (48 <=? n) && (n <=? 57) then Some (n - 48) else None.

Fixpoint lstrip (l : list ascii) : list ascii :=
  match l with
  | c :: r => if is_space c then lstrip r else l
  | [] => []
  end.

Definition strip (l : list ascii) : list ascii :=
  rev (lstrip (rev (lstrip l))).

(** Decimal digits with single underscores allowed between two digits.
    [after_digit] tells whether the previous character was a digit. *)
Fixpoint digits (acc : Z) (after_digit : bool) (l : list ascii) : option Z :=
  match l with
  | [] => if after_digit then Some acc else None
  | c :: r =>
      match digit_val c with
      | Some d => digits (10 * acc + d) true r
      | None =>
          if Ascii.eqb c "_"%char && after_digit then digits acc false r
          else None
      end
  end.

(** [int(s)] in base ten for an ASCII text [s]; [None] is [ValueError]. *)
Definition int (s : string) : option Z :=
  match strip (list_ascii_of_string s) with
  | "+"%char :: r => digits 0 false r
  | "-"%char :: r => option_map Z.opp (digits 0 false r)
  | l => digits 0 false l
  end.

(** [s.endswith(suffix)] *)
Definition endswith (s suffix : string) : bool :=
  let n := String.length s in
  let m := String.length suffix in
  (m <=? n)%nat && String.eqb (String.substring (n - m) m s) suffix.

End Py.

(* ===================================================================== *)
(** ** TimerThread *)

Module TimerThread.

(** Program points of [run]: the loop test (line 24), the callback
    (25), the sleep (26), the decrement (27), the test after the loop
    (29), the final callback (30), and the end of [run]. *)
Inductive pc := AtLoopTest | AtCallback | AtSleep | AtDecrement
              | AtFinalTest | AtFinalCallback | Finished.

(** The thread object.  [remaining] is the local of [run]; [delivered]
    records the arguments of the callback invocations made so far, most
    recent first. *)
Record t := mk {
  duration : Z;
  stop_event : bool;
  at_pc : pc;
  remaining : Z;
  delivered : list Z
}.

(** [TimerThread(duration, callback)] followed by [start()]: [run] is
    about to execute with [remaining = self.duration]. *)
Definition start (minutes : Z) : t :=
  {| duration := minutes * 60; stop_event := false; at_pc := AtLoopTest;
     remaining := minutes * 60; delivered := [] |}.

Definition stop (th : t) : t :=
  {| duration := duration th; stop_event := true; at_pc := at_pc th;
     remaining := remaining th; delivered := delivered th |}.

Definition is_alive (th : t) : bool :=
  match at_pc th with Finished => false | _ => true end.

Definition goto (p : pc) (th : t) : t :=
  {| duration := duration th; stop_event := stop_event th; at_pc := p;
     remaining := remaining th; delivered := delivered th |}.

Definition deliver (r : Z) (p : pc) (th : t) : t :=
  {| duration := duration th; stop_event := stop_event th; at_pc := p;
     remaining := remaining th; delivered := r :: delivered th |}.

(** One statement of [run].  The second component is the argument
    passed to the callback, if the statement is a callback. *)
Definition step (th : t) : t * option Z :=
  match at_pc th with
  | AtLoopTest =>
      if (0 <? remaining th) && negb (stop_event th)
      then (goto AtCallback th, None)
      else (goto AtFinalTest th, None)
  | AtCallback => (deliver (remaining th) AtSleep th, Some (remaining th))
  | AtSleep => (goto AtDecrement th, None)
  | AtDecrement =>
      ({| duration := duration th; stop_event := stop_event th;
          at_pc := AtLoopTest; remaining := remaining th - 1;
          delivered := delivered th |}, None)
  | AtFinalTest =>
      if negb (stop_event th) then (goto AtFinalCallback th, None)
      else (goto Finished th, None)
  | AtFinalCallback => (deliver 0 Finished th, Some 0)
  | Finished => (th, None)
  end.

Fixpoint steps (n : nat) (th : t) : t :=
  match n with
  | O => th
  | S k => steps k (fst (step th))
  end.

End TimerThread.

(* ===================================================================== *)
(** ** The report generator: [PomodoroApp.visualize_data] *)

Module Report.

(** One row of a record file, with the columns [save_to_csv] writes. *)
Record record := {
  Tanggal : Z * Z * Z;
  Judul : string;
  Deskripsi : string;
  Durasi : Z;
  Bahasa : string;
  Status : string
}.

Definition frame := list record.

(** What [os.listdir] and [os.path.isdir] show of the tree under the
    year folder.  A file carries what [pd.read_csv] and [pd.to_datetime]
    make of it: [None] when either raises. *)
Inductive day_node :=
| DayOther
| DayDir (files : list (string * option frame)).

Inductive month_node :=
| MonthOther
| MonthDir (days : list (string * day_node)).

Inductive year_path :=
| Missing
| NotADirectory
| YearDir (months : list (string * month_node)).

Inductive outcome :=
| Silent
| ErrorShown
| Saved (combined_df : frame).

(** The innermost loop, lines 224-232: [all_tasks_data] grows by the
    frames of the files named [*_tasks.csv] that can be read. *)
Fixpoint read_day (files : list (string * option frame)) (all_tasks_data : list frame)
  : list frame :=
  match files with
  | [] => all_tasks_data
  | (file, content) :: rest =>
      if Py.endswith file "_tasks.csv" then
        match content with
        | Some df => read_day rest (all_tasks_data ++ [df])
        | None => read_day rest all_tasks_data
        end
      else read_day rest all_tasks_data
  end.

Fixpoint read_month (days : list (string * day_node)) (all_tasks_data : list frame)
  : list frame :=
  match days with
  | [] => all_tasks_data
  | (_, DayDir files) :: rest => read_month rest (read_day files all_tasks_data)
  | (_, DayOther) :: rest => read_month rest all_tasks_data
  end.

Fixpoint read_year (months : list (string * month_node)) (all_tasks_data : list frame)
  : list frame :=
  match months with
  | [] => all_tasks_data
  | (_, MonthDir days) :: rest => read_year rest (read_month days all_tasks_data)
  | (_, MonthOther) :: rest => read_year rest all_tasks_data
  end.

(** [visualize_data].  [plot_ok] tells whether the plotting calls of
    lines 239-261 run to completion on the combined frame. *)
Definition visualize_data (year_folder : year_path) (plot_ok : bool) : outcome :=
  match year_folder with
  | Missing => Silent
  | NotADirectory => ErrorShown
  | YearDir months =>
      match read_year months [] with
      | [] => Silent
      | all_tasks_data =>
          if plot_ok then Saved (concat all_tasks_data) else ErrorShown
      end
  end.

(** The record files of a tree that are read successfully, in the order
    the loops meet them. *)
Definition readable_day (files : list (string * option frame)) : list frame :=
  omap (fun '(file, content) =>
          if Py.endswith file "_tasks.csv" then content else None) files.

Definition readable_month (days : list (string * day_node)) : list frame :=
  concat (map (fun '(_, d) => match d with DayDir files => readable_day files
                                      | DayOther => [] end) days).

Definition readable_year (months : list (string * month_node)) : list frame :=
  concat (map (fun '(_, m) => match m with MonthDir days => readable_month days
                                      | MonthOther => [] end) months).




End Report.

(* ===================================================================== *)
(** ** PomodoroApp *)

Module PomodoroApp.

(** The dict built by [add_task]. *)
Record Task := {
  title : string;
  description : string;
  duration : Z;
  language : string;
  status : string
}.

Definition with_status (st : string) (task : Task) : Task :=
  {| title := title task; description := description task;
     duration := duration task; language := language task; status := st |}.

(** Where the loop of [run] stands: still reading keys, left through
    [break], or left through an uncaught exception. *)
Inductive session := Looping | Exited | Raised.

(** The attributes of the application object, the thread objects it
    has created ([pool], in creation order; [current_timer] refers into
    it), and what it has put on the outside world: the timer panel
    (minutes, seconds), the rows last written by [save_to_csv], the
    outcome of the last [visualize_data]. *)
Record t := mk {
  tasks : list Task;
  pool : list TimerThread.t;
  current_timer : option nat;
  current_option : Z;
  current_language : Z;
  timer_win : option (Z * Z);
  csv_file : option (list Task);
  report : option Report.outcome;
  loop : session
}.

Definition menu_options : list string :=
  ["Add Task"; "Start Timer"; "Pause Timer"; "Stop Timer"; "View Tasks";
   "Visualize Data"; "Exit"].

Definition languages : list string := ["Python"; "Golang"; "Java"; "Rust"].

(** [__init__] *)
Definition init : t :=
  {| tasks := []; pool := []; current_timer := None; current_option := 0;
     current_language := 0; timer_win := None; csv_file := None;
     report := None; loop := Looping |}.

Definition set_tasks (x : list Task) (a : t) : t :=
  mk x (pool a) (current_timer a) (current_option a) (current_language a)
     (timer_win a) (csv_file a) (report a) (loop a).
Definition set_pool (x : list TimerThread.t) (a : t) : t :=
  mk (tasks a) x (current_timer a) (current_option a) (current_language a)
     (timer_win a) (csv_file a) (report a) (loop a).
Definition set_current_timer (x : option nat) (a : t) : t :=
  mk (tasks a) (pool a) x (current_option a) (current_language a)
     (timer_win a) (csv_file a) (report a) (loop a).
Definition set_current_option (x : Z) (a : t) : t :=
  mk (tasks a) (pool a) (current_timer a) x (current_language a)
     (timer_win a) (csv_file a) (report a) (loop a).
Definition set_current_language (x : Z) (a : t) : t :=
  mk (tasks a) (pool a) (current_timer a) (current_option a) x
     (timer_win a) (csv_file a) (report a) (loop a).
Definition set_timer_win (x : option (Z * Z)) (a : t) : t :=
  mk (tasks a) (pool a) (current_timer a) (current_option a) (current_language a)
     x (csv_file a) (report a) (loop a).
Definition set_csv_file (x : option (list Task)) (a : t) : t :=
  mk (tasks a) (pool a) (current_timer a) (current_option a) (current_language a)
     (timer_win a) x (report a) (loop a).
Definition set_report (x : option Report.outcome) (a : t) : t :=
  mk (tasks a) (pool a) (current_timer a) (current_option a) (current_language a)
     (timer_win a) (csv_file a) x (loop a).
Definition set_loop (x : session) (a : t) : t :=
  mk (tasks a) (pool a) (current_timer a) (current_option a) (current_language a)
     (timer_win a) (csv_file a) (report a) x.

(** An exception nobody catches leaves [run]. *)
Definition raise (a : t) : t := set_loop Raised a.

Definition display_timer (remaining : Z) (a : t) : t :=
  set_timer_win (Some (remaining / 60, remaining mod 60)) a.

(** The file of the day is rewritten with the whole task list. *)
Definition save_to_csv (a : t) : t := set_csv_file (Some (tasks a)) a.

(** [add_task]; the three arguments are the lines read by
    [get_string_input]. *)
Definition add_task (title_in desc_in duration_in : string) (a : t) : t :=
  match Py.int duration_in with
  | None => a
  | Some d =>
      match Py.getitem languages (current_language a) with
      | None => raise a
      | Some lang =>
          let task := {| title := title_in; description := desc_in; duration := d;
                         language := lang; status := "Not Started" |} in
          save_to_csv (set_tasks (tasks a ++ [task]) a)
      end
  end.

(** [self.current_timer and self.current_timer.is_alive()] *)
Definition timer_alive (a : t) : bool :=
  match current_timer a with
  | Some i =>
      match pool a !! i with
      | Some th => TimerThread.is_alive th
      | None => false
      end
  | None => false
  end.

Definition start_timer (a : t) : t :=
  match tasks a with
  | [] => a
  | _ =>
      if timer_alive a then a
      else
        match Py.index (length (tasks a)) (-1) with
        | None => raise a
        | Some last =>
            match tasks a !! last with
            | None => raise a
            | Some current_task =>
                let th := TimerThread.start (duration current_task) in
                set_tasks (alter (with_status "In Progress") last (tasks a))
                  (set_current_timer (Some (length (pool a)))
                     (set_pool (pool a ++ [th]) a))
            end
        end
  end.

Definition pause_timer (a : t) : t :=
  match current_timer a with
  | Some i => set_pool (alter TimerThread.stop i (pool a)) a
  | None => a
  end.

Definition stop_timer (a : t) : t :=
  match current_timer a with
  | Some i => display_timer 0 (set_pool (alter TimerThread.stop i (pool a)) a)
  | None => a
  end.

Definition visualize_data (year_folder : Report.year_path) (plot_ok : bool) (a : t) : t :=
  set_report (Some (Report.visualize_data year_folder plot_ok)) a.

(** What the outside world answers to the reads one turn of the loop
    may perform: the three lines typed at the prompts of [add_task],
    the tree under the folder of the current year and the fate of the
    plotting calls. *)
Record env := {
  typed : string * string * string;
  year_folder : Report.year_path;
  plot_ok : bool
}.

Definition KEY_UP : Z := 259.
Definition KEY_DOWN : Z := 258.
Definition KEY_ENTER : Z := 10.
Definition KEY_q : Z := 113.
Definition KEY_l : Z := 108.

(** One turn of the [while True] loop of [run] on the key read by
    [getch]. *)
Definition on_key (key : Z) (e : env) (a : t) : t :=
  if (key =? KEY_UP) && (0 <? current_option a) then
    set_current_option (current_option a - 1) a
  else if (key =? KEY_DOWN)
          && (current_option a <? Z.of_nat (length menu_options) - 1) then
    set_current_option (current_option a + 1) a
  else if key =? KEY_ENTER then
    match Py.getitem menu_options (current_option a) with
    | None => raise a
    | Some option =>
        if String.eqb option "Exit" then set_loop Exited a
        else if String.eqb option "Add Task" then
          let '(title_in, desc_in, duration_in) := typed e in
          add_task title_in desc_in duration_in a
        else if String.eqb option "Start Timer" then start_timer a
        else if String.eqb option "Pause Timer" then pause_timer a
        else if String.eqb option "Stop Timer" then stop_timer a
        else if String.eqb option "Visualize Data" then
          visualize_data (year_folder e) (plot_ok e) a
        else a
    end
  else if key =? KEY_q then set_loop Exited a
  else if key =? KEY_l then
    set_current_language
      ((current_language a + 1) mod Z.of_nat (length languages)) a
  else a.

(** One statement of the thread object [tid]; its callback is
    [display_timer]. *)
Definition tick (tid : nat) (a : t) : t :=
  match pool a !! tid with
  | None => a
  | Some th =>
      let '(th', called) := TimerThread.step th in
      let a' := set_pool (<[tid := th']> (pool a)) a in
      match called with
      | Some remaining => display_timer remaining a'
      | None => a'
      end
  end.

(** The session as an interleaving: a key reaches [run] while it
    loops; any thread may take a step at any time. *)
Inductive event :=
| Key (key : Z) (e : env)
| Tick (tid : nat).

Definition step (ev : event) (a : t) : t :=
  match ev with
  | Key key e =>
      match loop a with
      | Looping => on_key key e a
      | _ => a
      end
  | Tick tid => tick tid a
  end.

Definition exec (evs : list event) (a : t) : t :=
  fold_left (fun s ev => step ev s) evs a.

Definition in_progress (task : Task) : bool := String.eqb (status task) "In Progress".

(** A run of [add_task] calls, one per triple of typed lines. *)
Definition add_all (inputs : list (string * string * string)) (a : t) : t :=
  fold_left (fun s '(title_in, desc_in, duration_in) =>
               add_task title_in desc_in duration_in s) inputs a.

(** The calls of [add_task] that get past [int(duration)]. *)
Definition accepted (input : string * string * string) : bool :=
  match Py.int (snd input) with Some _ => true | None => false end.

End PomodoroApp.

(* ===================================================================== *)
(** ** Facts about the timer thread *)

Module ThreadFacts.
Import TimerThread.

(** The ticks [1; 2; ...; k], the order in which [delivered] holds a
    countdown from [k] once it is over. *)
Definition ticks_upto (k : nat) : list Z := map Z.of_nat (seq 1 k).

(** What keeps holding along [run] while nobody has called [stop]:
    inside the loop body [remaining] is positive, and only the final
    callback delivers a value that is not positive. *)
Definition unstopped (th : t) : Prop :=
  stop_event th = false /\
  (match at_pc th with
   | AtCallback | AtSleep | AtDecrement => 0 < remaining th
   | _ => True
   end) /\
  (match at_pc th with
   | Finished => True
   | _ => Forall (fun r => 0 < r) (delivered th)
   end).

Lemma steps_add n m th : steps (n + m) th = steps m (steps n th).
Proof. revert th; induction n as [|n IH]; intros th; simpl; [reflexivity | apply IH]. Qed.

Lemma step_finished th : at_pc th = Finished -> step th = (th, None).
Proof. intros H; unfold step; rewrite H; reflexivity. Qed.

Lemma steps_finished n th : at_pc th = Finished -> steps n th = th.
Proof.
  intros H; induction n as [|n IH]; simpl; [reflexivity|].
  rewrite (step_finished th H); exact IH.
Qed.

(** One turn of the loop of [run]: four statements, one tick. *)
Lemma loop_turn d r l :
  0 < r ->
  steps 4 (mk d false AtLoopTest r l) = mk d false AtLoopTest (r - 1) (r :: l).
Proof.
  intros Hr. simpl. unfold step at 4; simpl.
  destruct (0 <? r) eqn:E; [|lia]. reflexivity.
Qed.

Lemma countdown k d l :
  steps (4 * k) (mk d false AtLoopTest (Z.of_nat k) l)
  = mk d false AtLoopTest 0 (ticks_upto k ++ l).
Proof.
  revert l; induction k as [|k IH]; intros l; [reflexivity|].
  replace (4 * S k)%nat with (4 + 4 * k)%nat by lia.
  rewrite steps_add, loop_turn by lia.
  replace (Z.of_nat (S k) - 1) with (Z.of_nat k) by lia.
  rewrite IH. unfold ticks_upto. rewrite seq_S, map_app, <- app_assoc.
  reflexivity.
Qed.

(** The three statements that end [run] once the loop test fails. *)
Lemma run_exit d r l :
  r <= 0 ->
  steps 3 (mk d false AtLoopTest r l) = mk d false Finished r (0 :: l).
Proof.
  intros Hr. simpl. unfold step at 3; simpl.
  destruct (0 <? r) eqn:E; [lia|]. reflexivity.
Qed.

(** A whole run that nobody stops. *)
Lemma run_to_expiry d r l :
  0 <= r ->
  steps (4 * Z.to_nat r + 3) (mk d false AtLoopTest r l)
  = mk d false Finished 0 (0 :: ticks_upto (Z.to_nat r) ++ l).
Proof.
  intros Hr. rewrite steps_add.
  replace r with (Z.of_nat (Z.to_nat r)) at 2 by lia.
  rewrite countdown. apply run_exit. lia.
Qed.

Lemma ticks_upto_pos k : Forall (fun r => 0 < r) (ticks_upto k).
Proof.
  unfold ticks_upto. apply Forall_forall. intros x Hx.
  apply list_elem_of_In, in_map_iff in Hx. destruct Hx as [n [<- Hn]].
  apply in_seq in Hn. lia.
Qed.

Lemma unstopped_start minutes : unstopped (start minutes).
Proof. repeat split; simpl; constructor. Qed.

Lemma unstopped_step th : unstopped th -> unstopped (fst (step th)).
Proof.
  destruct th as [d s p r l]. intros (Hs & Hr & Hl); simpl in *; subst s.
  destruct p; unfold step, unstopped; simpl;
    [destruct (0 <? r) eqn:E; [apply Z.ltb_lt in E|]; simpl | ..];
    repeat split; try assumption; try lia.
  constructor; assumption.
Qed.

Lemma unstopped_steps n th : unstopped th -> unstopped (steps n th).
Proof.
  revert th; induction n as [|n IH]; intros th H; simpl; [exact H|].
  apply IH, unstopped_step, H.
Qed.

(** After [stop()] the thread is over within five statements. *)
Lemma steps_S n th : steps (S n) th = steps n (fst (step th)).
Proof. reflexivity. Qed.

(** Runs the next statement of a thread whose stop signal is set. *)
Ltac stopped_step :=
  rewrite steps_S; unfold step; cbn [at_pc stop_event remaining goto deliver negb fst];
  rewrite ?andb_false_r; cbn [fst].

Lemma stopped_ends th : stop_event th = true -> is_alive (steps 5 th) = false.
Proof.
  destruct th as [d s p r l]; cbn [stop_event]; intros ->.
  destruct p; repeat stopped_step; reflexivity.
Qed.

(** The callbacks a thread makes once its stop signal is set: one if
    the signal arrives between a test and its callback, none
    otherwise. *)
Definition stray (th : t) : list Z :=
  match at_pc th with
  | AtCallback => [remaining th]
  | AtFinalCallback => [0]
  | _ => []
  end.

Lemma stopped_delivers n th :
  stop_event th = true ->
  delivered (steps n th) = delivered th \/
  delivered (steps n th) = stray th ++ delivered th.
Proof.
  revert th; induction n as [|n IH]; intros th Hs; [left; reflexivity|].
  rewrite steps_S. destruct th as [d s p r l]; cbn [stop_event] in Hs; subst s.
  destruct p; unfold step;
    cbn [at_pc stop_event remaining goto deliver negb fst];
    rewrite ?andb_false_r; cbn [fst];
    match goal with
    | |- context [steps n ?th'] => destruct (IH th' eq_refl) as [E|E]; rewrite E
    end;
    unfold stray; cbn; auto.
Qed.

(** Once the stop signal is set, the next statement of the thread makes
    the callback that was let through, if there is one, and no statement
    after it makes another. *)
Lemma stopped_delivers_exact m th :
  stop_event th = true ->
  delivered (steps (S m) th) = stray th ++ delivered th.
Proof.
  intros Hs. rewrite steps_S.
  destruct th as [d s p r l]; cbn [stop_event] in Hs; subst s.
  destruct p; unfold step;
    cbn [at_pc stop_event remaining goto deliver negb fst];
    rewrite ?andb_false_r; cbn [fst];
    match goal with
    | |- context [steps m ?th'] =>
        destruct (stopped_delivers m th' eq_refl) as [E|E]; rewrite E
    end;
    reflexivity.
Qed.

(** A run that nobody stops delivers the ticks from the duration down
    to 1, then the final 0. *)
Lemma delivered_natural minutes :
  delivered (steps (4 * Z.to_nat (minutes * 60) + 3) (start minutes))
  = 0 :: ticks_upto (Z.to_nat (minutes * 60)).
Proof.
  unfold start. destruct (Z.le_gt_cases 0 (minutes * 60)) as [Hpos|Hneg].
  - rewrite run_to_expiry by exact Hpos. simpl. rewrite app_nil_r. reflexivity.
  - replace (Z.to_nat (minutes * 60)) with 0%nat by lia.
    change (4 * 0 + 3)%nat with 3%nat. rewrite run_exit by lia. reflexivity.
Qed.

Lemma finished_natural minutes :
  at_pc (steps (4 * Z.to_nat (minutes * 60) + 3) (start minutes)) = Finished.
Proof.
  unfold start. destruct (Z.le_gt_cases 0 (minutes * 60)) as [Hpos|Hneg].
  - rewrite run_to_expiry by exact Hpos. reflexivity.
  - replace (Z.to_nat (minutes * 60)) with 0%nat by lia.
    change (4 * 0 + 3)%nat with 3%nat. rewrite run_exit by lia. reflexivity.
Qed.

Lemma stray_positive th :
  unstopped th -> at_pc th <> AtFinalCallback -> Forall (fun r => 0 < r) (stray th).
Proof.
  intros (_ & Hr & _) Hpc. unfold stray.
  destruct (at_pc th);
    [constructor | constructor; [exact Hr | constructor] | constructor | constructor
     | constructor | contradiction | constructor].
Qed.

End ThreadFacts.

(* ===================================================================== *)
(** ** Facts about the session *)

Module AppFacts.
Import PomodoroApp.

(** *** The commands behind the keys *)

(** What one turn of the loop can do to the application. *)
Inductive turn (a : t) : t -> Prop :=
| turn_up : 0 < current_option a ->
    turn a (set_current_option (current_option a - 1) a)
| turn_down : current_option a < 6 ->
    turn a (set_current_option (current_option a + 1) a)
| turn_exit : turn a (set_loop Exited a)
| turn_add x y z : turn a (add_task x y z a)
| turn_start : turn a (start_timer a)
| turn_pause : turn a (pause_timer a)
| turn_stop : turn a (stop_timer a)
| turn_visualize y p : turn a (visualize_data y p a)
| turn_language :
    turn a (set_current_language ((current_language a + 1) mod 4) a)
| turn_idle : turn a a
| turn_raise : Py.getitem menu_options (current_option a) = None ->
    turn a (raise a).

Lemma on_key_turn key e a : turn a (on_key key e a).
Proof.
  unfold on_key.
  destruct ((key =? KEY_UP) && (0 <? current_option a)) eqn:E1.
  { apply turn_up. lia. }
  destruct ((key =? KEY_DOWN)
            && (current_option a <? Z.of_nat (length menu_options) - 1)) eqn:E2.
  { apply turn_down. change (Z.of_nat (length menu_options) - 1) with 6 in E2. lia. }
  destruct (key =? KEY_ENTER).
  - destruct (Py.getitem menu_options (current_option a)) as [opt|] eqn:G.
    + destruct (String.eqb opt "Exit"); [apply turn_exit|].
      destruct (String.eqb opt "Add Task").
      { destruct (typed e) as [[x y] z]. apply turn_add. }
      destruct (String.eqb opt "Start Timer"); [apply turn_start|].
      destruct (String.eqb opt "Pause Timer"); [apply turn_pause|].
      destruct (String.eqb opt "Stop Timer"); [apply turn_stop|].
      destruct (String.eqb opt "Visualize Data");
        [apply turn_visualize | apply turn_idle].
    + apply turn_raise. exact G.
  - destruct (key =? KEY_q); [apply turn_exit|].
    destruct (key =? KEY_l); [apply turn_language | apply turn_idle].
Qed.

(** Every event is a turn of the loop or a statement of a thread. *)
Lemma step_cases ev a :
  turn a (step ev a) \/ exists tid, step ev a = tick tid a.
Proof.
  destruct ev as [key e|tid]; simpl.
  - left. destruct (loop a); [apply on_key_turn | apply turn_idle ..].
  - right. exists tid. reflexivity.
Qed.

Lemma exec_snoc evs ev a : exec (evs ++ [ev]) a = step ev (exec evs a).
Proof. unfold exec. rewrite fold_left_app. reflexivity. Qed.

(** Induction over the states a session can reach. *)
Lemma reachable_ind (P : t -> Prop) :
  P init ->
  (forall a b, P a -> turn a b -> P b) ->
  (forall a tid, P a -> P (tick tid a)) ->
  forall evs, P (exec evs init).
Proof.
  intros Hinit Hturn Htick evs.
  induction evs as [|ev evs IH] using rev_ind; [exact Hinit|].
  rewrite exec_snoc.
  destruct (step_cases ev (exec evs init)) as [H|[tid H]].
  - eapply Hturn; eassumption.
  - rewrite H. apply Htick, IH.
Qed.

(** *** The commands, case by case *)

Lemma index_last (n : nat) : (0 < n)%nat -> Py.index n (-1) = Some (pred n).
Proof.
  intros Hn. unfold Py.index.
  destruct ((0 <=? -1) && (-1 <? Z.of_nat n)) eqn:E1; [lia|].
  destruct ((-1 <? 0) && (0 <=? Z.of_nat n + -1)) eqn:E2; [|lia].
  f_equal. lia.
Qed.

Lemma getitem_languages (i : Z) :
  0 <= i <= 3 -> exists lang, Py.getitem languages i = Some lang.
Proof.
  intros H.
  assert (E : i = 0 \/ i = 1 \/ i = 2 \/ i = 3) by lia.
  destruct E as [->|[->|[->| ->]]]; eexists; reflexivity.
Qed.

Lemma add_task_cases x y z a :
  0 <= current_language a <= 3 ->
  (Py.int z = None /\ add_task x y z a = a) \/
  (exists d lang,
      Py.int z = Some d /\
      Py.getitem languages (current_language a) = Some lang /\
      add_task x y z a
      = save_to_csv (set_tasks (tasks a ++ [Build_Task x y d lang "Not Started"]) a)).
Proof.
  intros Hl. unfold add_task.
  destruct (Py.int z) as [d|]; [right | left; split; reflexivity].
  destruct (getitem_languages _ Hl) as [lang E]. rewrite E.
  exists d, lang. repeat split.
Qed.

Lemma start_timer_cases a :
  (start_timer a = a /\ (tasks a = [] \/ timer_alive a = true)) \/
  (exists task,
      timer_alive a = false /\
      tasks a !! pred (length (tasks a)) = Some task /\
      start_timer a
      = set_tasks (alter (with_status "In Progress") (pred (length (tasks a))) (tasks a))
          (set_current_timer (Some (length (pool a)))
             (set_pool (pool a ++ [TimerThread.start (duration task)]) a))).
Proof.
  unfold start_timer.
  destruct (tasks a) as [|t0 ts] eqn:Et; [left; split; [reflexivity | left; reflexivity]|].
  destruct (timer_alive a); [left; split; [reflexivity | right; reflexivity]|].
  right. rewrite index_last by (simpl; lia).
  destruct (lookup_lt_is_Some_2 (t0 :: ts) (pred (length (t0 :: ts)))) as [task E];
    [simpl; lia|].
  rewrite E. exists task. repeat split.
Qed.

Lemma tick_frame tid a :
  tasks (tick tid a) = tasks a /\
  current_timer (tick tid a) = current_timer a /\
  current_option (tick tid a) = current_option a /\
  current_language (tick tid a) = current_language a /\
  csv_file (tick tid a) = csv_file a /\
  report (tick tid a) = report a /\
  loop (tick tid a) = loop a.
Proof.
  unfold tick. destruct (pool a !! tid) as [th|]; [|repeat split].
  destruct (TimerThread.step th) as [th' [r|]]; repeat split.
Qed.

Lemma tick_pool tid a :
  pool (tick tid a)
  = match pool a !! tid with
    | Some th => <[tid := fst (TimerThread.step th)]> (pool a)
    | None => pool a
    end.
Proof.
  unfold tick. destruct (pool a !! tid) as [th|]; [|reflexivity].
  destruct (TimerThread.step th) as [th' [r|]]; reflexivity.
Qed.

(** *** What every reachable state satisfies *)

Definition finished (th : TimerThread.t) : Prop := TimerThread.is_alive th = false.

(** The reference [current_timer] is the thread created last, and every
    thread created before it has left [run]. *)
Definition pool_ok (a : t) : Prop :=
  match current_timer a with
  | None => pool a = []
  | Some i => S i = length (pool a) /\ Forall finished (take i (pool a))
  end.

Definition status_ok (task : Task) : Prop :=
  status task = "Not Started" \/ status task = "In Progress".

Record inv (a : t) : Prop := {
  inv_option : 0 <= current_option a <= 6;
  inv_language : 0 <= current_language a <= 3;
  inv_loop : loop a <> Raised;
  inv_pool : pool_ok a;
  inv_status : Forall status_ok (tasks a)
}.

Lemma inv_init : inv init.
Proof. split; simpl; try lia; try discriminate; [reflexivity | constructor]. Qed.

Lemma finished_step th : finished th -> fst (TimerThread.step th) = th.
Proof.
  unfold finished, TimerThread.is_alive. intros H.
  rewrite ThreadFacts.step_finished; [reflexivity|].
  destruct (TimerThread.at_pc th); try discriminate; reflexivity.
Qed.

Lemma timer_alive_false a i th :
  current_timer a = Some i -> pool a !! i = Some th ->
  timer_alive a = false -> finished th.
Proof. unfold timer_alive. intros -> ->. auto. Qed.

Lemma pool_ok_all_finished a :
  pool_ok a -> timer_alive a = false -> Forall finished (pool a).
Proof.
  unfold pool_ok. intros H Hd.
  destruct (current_timer a) as [i|] eqn:Ec; [|rewrite H; constructor].
  destruct H as [Hlen Hall].
  destruct (lookup_lt_is_Some_2 (pool a) i) as [th E]; [lia|].
  rewrite <- (take_ge (pool a) (S i)) by lia.
  rewrite (take_S_r _ _ _ E). apply Forall_app. split; [exact Hall|].
  repeat constructor. eapply timer_alive_false; eassumption.
Qed.

Lemma pool_ok_start a th :
  pool_ok a -> timer_alive a = false ->
  pool_ok (set_current_timer (Some (length (pool a))) (set_pool (pool a ++ [th]) a)).
Proof.
  intros H Hd. unfold pool_ok; simpl. split.
  - rewrite length_app. simpl. lia.
  - rewrite take_app_length. apply pool_ok_all_finished; assumption.
Qed.

Lemma pool_ok_stop a i :
  pool_ok a -> current_timer a = Some i ->
  pool_ok (set_pool (alter TimerThread.stop i (pool a)) a).
Proof.
  unfold pool_ok; simpl. intros H E. rewrite E in *. destruct H as [Hlen Hall].
  split; [rewrite length_alter; exact Hlen|].
  rewrite take_alter_ge by lia. exact Hall.
Qed.

Lemma pool_ok_tick tid a : pool_ok a -> pool_ok (tick tid a).
Proof.
  unfold pool_ok. intros H.
  destruct (tick_frame tid a) as (_ & -> & _). rewrite tick_pool.
  destruct (pool a !! tid) as [th|] eqn:E; [|exact H].
  destruct (current_timer a) as [i|].
  - destruct H as [Hlen Hall]. rewrite length_insert. split; [exact Hlen|].
    destruct (decide (i <= tid)%nat) as [Hle|Hgt].
    + rewrite take_insert_ge by exact Hle. exact Hall.
    + assert (Hf : finished th).
      { rewrite Forall_lookup in Hall. apply (Hall tid).
        rewrite lookup_take_lt by lia. exact E. }
      rewrite (finished_step _ Hf), list_insert_id by exact E. exact Hall.
  - rewrite H in E. discriminate.
Qed.

Lemma inv_turn a b : inv a -> turn a b -> inv b.
Proof.
  intros [Ho Hl Hr Hp Hs] T. destruct T.
  - split; simpl; try assumption; lia.
  - split; simpl; try assumption; lia.
  - split; simpl; try assumption; discriminate.
  - destruct (add_task_cases x y z a Hl) as [[_ ->]|(d & lang & _ & _ & ->)];
      split; simpl; try assumption.
    apply Forall_app. split; [assumption|]. repeat constructor.
  - destruct (start_timer_cases a) as [[-> _]|(task & Hd & Ht & ->)];
      split; simpl; try assumption.
    + apply pool_ok_start; assumption.
    + apply Forall_alter; [assumption|]. intros; right; reflexivity.
  - unfold pause_timer. destruct (current_timer a) as [i|] eqn:E;
      split; simpl; try assumption.
    apply pool_ok_stop; assumption.
  - unfold stop_timer. destruct (current_timer a) as [i|] eqn:E;
      split; simpl; try assumption.
    apply (pool_ok_stop a i); assumption.
  - split; simpl; assumption.
  - split; simpl; try assumption.
    pose proof (Z.mod_pos_bound (current_language a + 1) 4). lia.
  - split; assumption.
  - exfalso. unfold Py.getitem, Py.index in H. simpl length in H.
    assert (E : current_option a = 0 \/ current_option a = 1 \/ current_option a = 2
                \/ current_option a = 3 \/ current_option a = 4 \/ current_option a = 5
                \/ current_option a = 6) by lia.
    destruct E as [E|[E|[E|[E|[E|[E|E]]]]]]; rewrite E in H; discriminate.
Qed.

Lemma inv_tick a tid : inv a -> inv (tick tid a).
Proof.
  intros [Ho Hl Hr Hp Hs].
  destruct (tick_frame tid a) as (Et & Ec & Eo & El & _ & _ & Er).
  split; rewrite ?Et, ?Eo, ?El, ?Er; try assumption.
  apply pool_ok_tick; assumption.
Qed.

Lemma inv_reachable evs : inv (exec evs init).
Proof.
  apply reachable_ind; [exact inv_init | |].
  - intros a b Ha T. eapply inv_turn; eassumption.
  - intros a tid Ha. apply inv_tick; assumption.
Qed.

(** *** Frames of the commands *)

(** No command rewrites the language of a task already in the list. *)
Lemma turn_keeps_language a b i task :
  turn a b -> tasks a !! i = Some task ->
  exists task', tasks b !! i = Some task' /\ language task' = language task.
Proof.
  intros T Hi. destruct T; simpl; eauto.
  - unfold add_task. repeat case_match; simpl; eauto.
    exists task. split; [apply lookup_app_l_Some; exact Hi | reflexivity].
  - destruct (start_timer_cases a) as [[-> _]|(last & _ & _ & ->)]; eauto. simpl.
    destruct (decide (pred (length (tasks a)) = i)) as [<-|Hne].
    + exists (with_status "In Progress" task). split; [|reflexivity].
      rewrite list_lookup_alter_eq, Hi. reflexivity.
    + exists task. split; [|reflexivity].
      rewrite list_lookup_alter_ne by exact Hne. exact Hi.
  - unfold pause_timer. case_match; simpl; eauto.
  - unfold stop_timer. case_match; simpl; eauto.
Qed.

(** *** Running one thread for a while *)

Lemma step_called th :
  TimerThread.delivered (fst (TimerThread.step th))
  = match snd (TimerThread.step th) with
    | Some r => r :: TimerThread.delivered th
    | None => TimerThread.delivered th
    end.
Proof.
  destruct th as [d s p r l]. destruct p; unfold TimerThread.step; simpl;
    try reflexivity.
  - destruct ((0 <? r) && negb s); reflexivity.
  - destruct (negb s); reflexivity.
Qed.

Lemma tick_timer_win tid a th :
  pool a !! tid = Some th ->
  timer_win (tick tid a)
  = match snd (TimerThread.step th) with
    | Some r => Some (r / 60, r mod 60)
    | None => timer_win a
    end.
Proof.
  intros E. unfold tick. rewrite E.
  destruct (TimerThread.step th) as [th' [r|]]; reflexivity.
Qed.

Lemma exec_ticks_S tid n a :
  exec (repeat (Tick tid) (S n)) a = exec (repeat (Tick tid) n) (tick tid a).
Proof. reflexivity. Qed.

(** [n] consecutive statements of the thread [tid]: the thread advances
    by [n] steps, the panel shows the last tick delivered if there was
    one, and nothing else moves. *)
Lemma exec_ticks tid n : forall a th,
  pool a !! tid = Some th ->
  let b := exec (repeat (Tick tid) n) a in
  pool b = <[tid := TimerThread.steps n th]> (pool a) /\
  tasks b = tasks a /\
  current_timer b = current_timer a /\
  current_option b = current_option a /\
  current_language b = current_language a /\
  loop b = loop a /\
  ((timer_win b = timer_win a /\
    TimerThread.delivered (TimerThread.steps n th) = TimerThread.delivered th) \/
   (exists r rest,
       TimerThread.delivered (TimerThread.steps n th) = r :: rest /\
       timer_win b = Some (r / 60, r mod 60))).
Proof.
  induction n as [|n IH]; intros a th E; cbv zeta.
  - simpl. rewrite list_insert_id by exact E. repeat split. left. split; reflexivity.
  - rewrite exec_ticks_S.
    assert (Hlt : (tid < length (pool a))%nat) by (apply lookup_lt_is_Some; eauto).
    assert (E' : pool (tick tid a) !! tid = Some (fst (TimerThread.step th))).
    { rewrite tick_pool, E. apply list_lookup_insert_eq, Hlt. }
    destruct (IH _ _ E') as (Hp & Ht & Hc & Ho & Hl & Hr & Hw).
    destruct (tick_frame tid a) as (Ft & Fc & Fo & Fl & _ & _ & Fr).
    rewrite Hp, Ht, Hc, Ho, Hl, Hr, Ft, Fc, Fo, Fl, Fr.
    rewrite tick_pool, E, list_insert_insert_eq.
    repeat split.
    change (TimerThread.steps (S n) th)
      with (TimerThread.steps n (fst (TimerThread.step th))).
    destruct Hw as [[Hw Hd]|(r & rest & Hd & Hw)].
    + rewrite Hw, Hd, (tick_timer_win _ _ _ E), step_called.
      destruct (snd (TimerThread.step th)) as [r|].
      * right. exists r, (TimerThread.delivered th). split; reflexivity.
      * left. split; reflexivity.
    + right. exists r, rest. split; assumption.
Qed.

Lemma getitem_last {A : Type} (l : list A) :
  l <> [] -> Py.getitem l (-1) = l !! pred (length l).
Proof.
  intros Hne. unfold Py.getitem. rewrite index_last; [reflexivity|].
  destruct l; [contradiction | simpl; lia].
Qed.

Lemma getitem_Some_nonempty {A : Type} (l : list A) i x :
  Py.getitem l i = Some x -> l <> [].
Proof. intros H ->. unfold Py.getitem in H. destruct (Py.index _ _); discriminate. Qed.

(** What [start_timer] does when it goes through. *)
Lemma start_timer_runs a task :
  Py.getitem (tasks a) (-1) = Some task ->
  timer_alive a = false ->
  start_timer a
  = set_tasks (alter (with_status "In Progress") (pred (length (tasks a))) (tasks a))
      (set_current_timer (Some (length (pool a)))
         (set_pool (pool a ++ [TimerThread.start (duration task)]) a)).
Proof.
  intros Hg Hd. pose proof (getitem_Some_nonempty _ _ _ Hg) as Hne.
  rewrite getitem_last in Hg by exact Hne.
  destruct (start_timer_cases a) as [[_ [H|H]]|(task' & _ & Ht & ->)].
  - contradiction.
  - congruence.
  - rewrite Hg in Ht. injection Ht as <-. reflexivity.
Qed.

(** A thread that is still alive can only be the current timer. *)
Lemma alive_is_current a :
  pool_ok a -> existsb TimerThread.is_alive (pool a) = true -> timer_alive a = true.
Proof.
  intros Hp Hex. destruct (timer_alive a) eqn:Hd; [reflexivity|].
  pose proof (pool_ok_all_finished a Hp Hd) as Hall.
  apply existsb_exists in Hex. destruct Hex as [th [Hin Hal]].
  rewrite Forall_forall in Hall. apply list_elem_of_In in Hin.
  specialize (Hall th Hin). unfold finished in Hall. congruence.
Qed.

Lemma filter_finished l :
  Forall finished l -> List.filter TimerThread.is_alive l = [].
Proof.
  induction 1 as [|th l Hth _ IH]; [reflexivity|].
  simpl. rewrite Hth. exact IH.
Qed.

End AppFacts.

(* ===================================================================== *)
(** ** Concrete sessions *)

Module Scenario.
Import PomodoroApp.

(** The answers of the outside world during a turn: the lines typed at
    the prompts, with [duration_text] as the duration, and no folder for
    the year. *)
Definition answers (duration_text : string) : env :=
  {| typed := ("Write parser", "impl", duration_text);
     year_folder := Report.Missing; plot_ok := true |}.

Definition press (key : Z) : event := Key key (answers "25").

(** Enter on "Add Task" with the given duration. *)
Definition add (duration_text : string) : event := Key KEY_ENTER (answers duration_text).

(** From the first menu entry: add a task, move to "Start Timer", start. *)
Definition add_and_start (duration_text : string) : list event :=
  [add duration_text; press KEY_DOWN; press KEY_ENTER].

Definition parser_task : Task :=
  {| title := "Write parser"; description := "impl"; duration := 25;
     language := "Python"; status := "Not Started" |}.

(** Scenario A: one task of 25 minutes has been added. *)
Definition after_add : t := exec [add "25"] init.

(** Scenario B: its timer has been started. *)
Definition after_start : t := exec (add_and_start "25") init.

(** A year folder as [save_to_csv] and [visualize_data] leave it, with a
    record file that cannot be parsed and a file of another kind next to
    the record file of the day. *)
Definition row : Report.record :=
  {| Report.Tanggal := (2024, 5, 17); Report.Judul := "Write parser";
     Report.Deskripsi := "impl"; Report.Durasi := 25;
     Report.Bahasa := "Python"; Report.Status := "Not Started" |}.

Definition year_2024 : list (string * Report.month_node) :=
  [("May", Report.MonthDir
             [("17", Report.DayDir
                       [("2024-05-17_tasks.csv", Some [row]);
                        ("broken_tasks.csv", None);
                        ("notes.txt", Some [row; row])]);
              ("README", Report.DayOther)]);
   ("Visualizations", Report.MonthDir [("TaskVisualization_2024.png", Report.DayOther)])].


End Scenario.

(* ===================================================================== *)
(** ** The menu and the language selector *)

Module MenuProperties.
Import PomodoroApp AppFacts.

(** C8.  Whatever keys are pressed and however the threads run, the
    selected menu entry stays between 0 and [option_count - 1]; the up
    key at entry 0 and the down key at the last entry change nothing
    (no wrap-around); elsewhere they move by one; and an event that is
    not one of these two keys leaves the selected entry as it is. *)
Theorem selected_index_clamps :
  (forall evs,
      0 <= current_option (exec evs init) <= Z.of_nat (length menu_options) - 1) /\
  (forall a e, current_option a = 0 -> on_key KEY_UP e a = a) /\
  (forall a e, current_option a = Z.of_nat (length menu_options) - 1 ->
               on_key KEY_DOWN e a = a) /\
  (forall a e, 0 < current_option a ->
               on_key KEY_UP e a = set_current_option (current_option a - 1) a) /\
  (forall a e, current_option a < Z.of_nat (length menu_options) - 1 ->
               on_key KEY_DOWN e a = set_current_option (current_option a + 1) a) /\
  (forall a ev,
      (forall e, ev <> Key KEY_UP e) -> (forall e, ev <> Key KEY_DOWN e) ->
      current_option (step ev a) = current_option a).
Proof.
  change (Z.of_nat (length menu_options) - 1) with 6.
  repeat split.
  - apply (inv_option _ (inv_reachable evs)).
  - apply (inv_option _ (inv_reachable evs)).
  - intros a e H. unfold on_key. rewrite H. reflexivity.
  - intros a e H. unfold on_key.
    change (Z.of_nat (length menu_options) - 1) with 6. rewrite H. reflexivity.
  - intros a e H. unfold on_key.
    destruct (0 <? current_option a) eqn:E; [reflexivity | lia].
  - intros a e H. unfold on_key.
    change (Z.of_nat (length menu_options) - 1) with 6.
    destruct (0 <? current_option a) eqn:E0;
      destruct (current_option a <? 6) eqn:E; try reflexivity; lia.
  - intros a ev Hup Hdown. destruct ev as [key e|tid]; simpl.
    + assert (Ku : (key =? KEY_UP) = false)
        by (apply Z.eqb_neq; intros ->; exact (Hup e eq_refl)).
      assert (Kd : (key =? KEY_DOWN) = false)
        by (apply Z.eqb_neq; intros ->; exact (Hdown e eq_refl)).
      destruct (loop a); try reflexivity.
      unfold on_key. rewrite Ku, Kd. simpl.
      unfold add_task, start_timer, pause_timer, stop_timer.
      repeat case_match; reflexivity.
    + apply (tick_frame tid a).
Qed.

Lemma selected_index_clamps_witness :
  current_option init = 0 /\
  on_key KEY_UP (Scenario.answers "25") init = init.
Proof.
  assert (H : current_option init = 0) by reflexivity.
  refine (conj H _).
  exact (proj1 (proj2 selected_index_clamps) init (Scenario.answers "25") H).
Defined.

(** C10.  The language of a task is the entry of [languages] selected
    when [add_task] runs, and no later event rewrites it.  The key [l]
    only advances the selector, modulo the number of languages: the task
    list, the threads, the timer panel and the menu selection are as
    before. *)
Theorem cycle_language_frame :
  (forall a e,
      loop a = Looping ->
      step (Key KEY_l e) a
      = set_current_language
          ((current_language a + 1) mod Z.of_nat (length languages)) a) /\
  (forall a e,
      let b := step (Key KEY_l e) a in
      tasks b = tasks a /\ pool b = pool a /\ current_timer b = current_timer a /\
      timer_win b = timer_win a /\ current_option b = current_option a /\
      loop b = loop a) /\
  (forall a x y z d lang,
      Py.int z = Some d ->
      Py.getitem languages (current_language a) = Some lang ->
      tasks (add_task x y z a)
      = tasks a ++ [{| title := x; description := y; duration := d;
                       language := lang; status := "Not Started" |}]) /\
  (forall a ev i task,
      tasks a !! i = Some task ->
      exists task', tasks (step ev a) !! i = Some task' /\
                    language task' = language task).
Proof.
  repeat split.
  - intros a e H. simpl. rewrite H. reflexivity.
  - simpl. destruct (loop a); reflexivity.
  - simpl. destruct (loop a); reflexivity.
  - simpl. destruct (loop a); reflexivity.
  - simpl. destruct (loop a); reflexivity.
  - simpl. destruct (loop a); reflexivity.
  - simpl. destruct (loop a) eqn:E; try reflexivity; exact E.
  - intros a x y z d lang Hz Hl. unfold add_task. rewrite Hz, Hl. reflexivity.
  - intros a ev i task Hi.
    destruct (step_cases ev a) as [T|[tid ->]].
    + eapply turn_keeps_language; eassumption.
    + exists task. destruct (tick_frame tid a) as (-> & _). split; [exact Hi | reflexivity].
Qed.

Lemma cycle_language_frame_witness :
  loop init = Looping /\
  step (Key KEY_l (Scenario.answers "25")) init = set_current_language 1 init.
Proof.
  assert (H : loop init = Looping) by reflexivity.
  refine (conj H _).
  exact (proj1 cycle_language_frame init (Scenario.answers "25") H).
Defined.

End MenuProperties.

(* ===================================================================== *)
(** ** The timer and the tasks *)

Module TimerProperties.
Import PomodoroApp AppFacts ThreadFacts Scenario.

(** C1 as the specification has it fails: a one-minute task is started
    and its countdown runs out; a second task is added and started; both
    tasks are then "In Progress". *)
Lemma two_tasks_in_progress :
  let a := exec (add_and_start "1" ++ repeat (Tick 0%nat) (4 * 60 + 3)
                 ++ [press KEY_UP; add "1"; press KEY_DOWN; press KEY_ENTER]) init in
  ~ (length (List.filter in_progress (tasks a)) <= 1)%nat.
Proof. vm_compute. lia. Qed.

(** C1, amended.  In every state a session can reach at most one timer
    thread is alive, and while one is alive no event makes a task enter
    "In Progress": the tasks that are "In Progress" after the event are
    those that were before it. *)
Theorem one_live_timer evs :
  let a := exec evs init in
  (length (List.filter TimerThread.is_alive (pool a)) <= 1)%nat /\
  (forall ev,
      existsb TimerThread.is_alive (pool a) = true ->
      List.filter in_progress (tasks (step ev a)) = List.filter in_progress (tasks a)).
Proof.
  intros a. pose proof (inv_reachable evs) as Hinv. fold a in Hinv.
  destruct Hinv as [_ Hl _ Hp _]. split.
  - unfold pool_ok in Hp. destruct (current_timer a) as [i|].
    + destruct Hp as [Hlen Hall].
      destruct (lookup_lt_is_Some_2 (pool a) i) as [th E]; [lia|].
      rewrite <- (take_ge (pool a) (S i)) by lia.
      rewrite (take_S_r _ _ _ E), List.filter_app, (filter_finished _ Hall).
      simpl. destruct (TimerThread.is_alive th); simpl; lia.
    + rewrite Hp. simpl. lia.
  - intros ev Hal. pose proof (alive_is_current a Hp Hal) as Hd.
    destruct (step_cases ev a) as [T|[tid ->]].
    + destruct T; try reflexivity.
      * destruct (add_task_cases x y z a Hl) as [[_ ->]|(d & lang & _ & _ & ->)];
          [reflexivity|].
        simpl. rewrite List.filter_app. simpl. apply app_nil_r.
      * destruct (start_timer_cases a) as [[-> _]|(task & Hf & _)];
          [reflexivity | congruence].
      * unfold pause_timer. destruct (current_timer a); reflexivity.
      * unfold stop_timer. destruct (current_timer a); reflexivity.
    + destruct (tick_frame tid a) as (-> & _). reflexivity.
Qed.

Lemma one_live_timer_witness :
  existsb TimerThread.is_alive (pool (exec (add_and_start "25") init)) = true /\
  List.filter in_progress
    (tasks (step (add "5") (exec (add_and_start "25") init)))
  = List.filter in_progress (tasks (exec (add_and_start "25") init)).
Proof.
  assert (H : existsb TimerThread.is_alive (pool (exec (add_and_start "25") init)) = true)
    by reflexivity.
  refine (conj H _).
  exact (proj2 (one_live_timer (add_and_start "25")) (add "5") H).
Defined.

(** The statuses the code writes: in every state a session can reach a
    task is "Not Started" or "In Progress". *)
Lemma status_written evs :
  Forall (fun task => status task = "Not Started" \/ status task = "In Progress")
         (tasks (exec evs init)).
Proof. exact (inv_status _ (inv_reachable evs)). Qed.

(** C2 as the specification has it fails: at the natural end of the
    25-minute countdown of scenario C (1500 turns of four statements and
    the three statements that close [run]) the thread is over with its
    stop signal unset and [remaining] at 0, but the task is not
    "Completed". *)
Lemma expiry_does_not_complete :
  let b := exec (add_and_start "25" ++ repeat (Tick 0%nat) (4 * 1500 + 3)) init in
  (exists th, pool b !! 0%nat = Some th /\
              TimerThread.at_pc th = TimerThread.Finished /\
              TimerThread.stop_event th = false /\
              TimerThread.remaining th = 0) /\
  option_map status (Py.getitem (tasks b) (-1)) <> Some "Completed".
Proof.
  vm_compute. split.
  - eexists. repeat split.
  - discriminate.
Qed.

(** C2, amended.  When the countdown of a freshly started timer runs to
    its end with no Stop or Pause, the thread leaves [run] with its stop
    signal unset and [remaining] at 0, having delivered each tick from
    the duration down to 1 and then the final 0 once; the panel shows
    00:00; the task list is the one [start_timer] left: the active task
    stays "In Progress". *)
Theorem natural_expiry a task :
  Py.getitem (tasks a) (-1) = Some task ->
  timer_alive a = false ->
  0 <= duration task ->
  let tid := length (pool a) in
  let seconds := duration task * 60 in
  let b := exec (repeat (Tick tid) (4 * Z.to_nat seconds + 3)) (start_timer a) in
  pool b !! tid
  = Some (TimerThread.mk seconds false TimerThread.Finished 0
            (0 :: ticks_upto (Z.to_nat seconds))) /\
  current_timer b = Some tid /\
  timer_alive b = false /\
  timer_win b = Some (0, 0) /\
  tasks b = tasks (start_timer a) /\
  Py.getitem (tasks b) (-1) = Some (with_status "In Progress" task).
Proof.
  intros Hg Hd Hpos tid seconds b.
  pose proof (start_timer_runs a task Hg Hd) as Es.
  assert (E0 : pool (start_timer a) !! tid = Some (TimerThread.start (duration task))).
  { rewrite Es. simpl. apply list_lookup_middle. reflexivity. }
  destruct (exec_ticks tid (4 * Z.to_nat seconds + 3) _ _ E0)
    as (Hp & Ht & Hc & _ & _ & _ & Hw).
  fold b in Hp, Ht, Hc, Hw.
  assert (Hrun : TimerThread.steps (4 * Z.to_nat seconds + 3)
                   (TimerThread.start (duration task))
                 = TimerThread.mk seconds false TimerThread.Finished 0
                     (0 :: ticks_upto (Z.to_nat seconds))).
  { unfold TimerThread.start. fold seconds. rewrite run_to_expiry by (unfold seconds; lia).
    rewrite app_nil_r. reflexivity. }
  rewrite Hrun in Hp, Hw.
  assert (Hlook : pool b !! tid
                  = Some (TimerThread.mk seconds false TimerThread.Finished 0
                            (0 :: ticks_upto (Z.to_nat seconds)))).
  { rewrite Hp. apply list_lookup_insert_eq. apply lookup_lt_is_Some. eauto. }
  assert (Hcur : current_timer b = Some tid) by (rewrite Hc, Es; reflexivity).
  repeat split.
  - exact Hlook.
  - exact Hcur.
  - unfold timer_alive. rewrite Hcur, Hlook. reflexivity.
  - destruct Hw as [[_ Hw]|(r & rest & Hw & ->)]; [discriminate|].
    simpl in Hw. injection Hw as <- _. reflexivity.
  - exact Ht.
  - rewrite Ht, Es. simpl.
    pose proof (getitem_Some_nonempty _ _ _ Hg) as Hne.
    rewrite getitem_last in Hg by exact Hne.
    rewrite getitem_last.
    + rewrite length_alter, list_lookup_alter_eq, Hg. reflexivity.
    + intros E. apply (f_equal length) in E. rewrite length_alter in E.
      destruct (tasks a); [contradiction | discriminate].
Qed.

(** Scenario C on the code: the 25-minute task of scenarios A and B. *)
Lemma natural_expiry_witness :
  Py.getitem (tasks after_add) (-1) = Some parser_task /\
  timer_alive after_add = false /\
  0 <= duration parser_task /\
  Py.getitem
    (tasks (exec (repeat (Tick (length (pool after_add)))
                    (4 * Z.to_nat (duration parser_task * 60) + 3))
              (start_timer after_add))) (-1)
  = Some (with_status "In Progress" parser_task).
Proof.
  assert (H1 : Py.getitem (tasks after_add) (-1) = Some parser_task) by reflexivity.
  assert (H2 : timer_alive after_add = false) by reflexivity.
  assert (H3 : 0 <= duration parser_task) by (simpl; lia).
  refine (conj H1 (conj H2 (conj H3 _))).
  exact (proj2 (proj2 (proj2 (proj2 (proj2
           (natural_expiry after_add parser_task H1 H2 H3)))))).
Defined.

(** C3 as the specification has it fails: in scenario D, ten ticks into
    the countdown, "Stop Timer" leaves the task "In Progress", the
    countdown of the thread at 1490 and the timer referenced. *)
Lemma stop_does_not_mark_stopped :
  let b := exec (add_and_start "25" ++ repeat (Tick 0%nat) 40
                 ++ [press KEY_DOWN; press KEY_DOWN; press KEY_ENTER]) init in
  option_map status (Py.getitem (tasks b) (-1)) <> Some "Stopped" /\
  option_map TimerThread.remaining (pool b !! 0%nat) <> Some 0 /\
  current_timer b <> None.
Proof. vm_compute. repeat split; discriminate. Qed.

(** C3, amended.  With a current timer, running or already signalled,
    [stop_timer] sets the stop signal of its thread, which is then over
    within five of its statements, and shows 00:00 in the panel.  The
    countdown of the thread, the other threads, the reference to the
    timer and the task list, hence the status of the active task, are
    what they were. *)
Theorem stop_timer_effect a i th :
  current_timer a = Some i ->
  pool a !! i = Some th ->
  let b := stop_timer a in
  pool b !! i = Some (TimerThread.stop th) /\
  TimerThread.stop_event (TimerThread.stop th) = true /\
  TimerThread.remaining (TimerThread.stop th) = TimerThread.remaining th /\
  (forall j, j <> i -> pool b !! j = pool a !! j) /\
  timer_alive (exec (repeat (Tick i) 5) b) = false /\
  timer_win b = Some (0, 0) /\
  current_timer b = Some i /\
  tasks b = tasks a.
Proof.
  intros Hc Hi. unfold stop_timer. rewrite Hc.
  set (c := display_timer 0 (set_pool (alter TimerThread.stop i (pool a)) a)).
  cbv zeta.
  assert (Hs : pool c !! i = Some (TimerThread.stop th)).
  { change (pool c) with (alter TimerThread.stop i (pool a)).
    rewrite list_lookup_alter_eq, Hi. reflexivity. }
  split; [exact Hs|]. split; [reflexivity|]. split; [reflexivity|].
  split; [|split; [|split; [reflexivity | split; [exact Hc | reflexivity]]]].
  - intros j Hj. change (pool c) with (alter TimerThread.stop i (pool a)).
    apply list_lookup_alter_ne. congruence.
  - destruct (exec_ticks i 5 c _ Hs) as (Hp & _ & Hcur & _).
    unfold timer_alive. rewrite Hcur, Hp.
    change (current_timer c) with (current_timer a). rewrite Hc.
    rewrite list_lookup_insert_eq by (apply lookup_lt_is_Some; eauto).
    apply stopped_ends. reflexivity.
Qed.

(** Scenario D on the code. *)
Lemma stop_timer_effect_witness :
  current_timer after_start = Some 0%nat /\
  pool after_start !! 0%nat = Some (TimerThread.start 25) /\
  tasks (stop_timer after_start) = tasks after_start.
Proof.
  assert (H1 : current_timer after_start = Some 0%nat) by reflexivity.
  assert (H2 : pool after_start !! 0%nat = Some (TimerThread.start 25)) by reflexivity.
  refine (conj H1 (conj H2 _)).
  exact (proj2 (proj2 (proj2 (proj2 (proj2 (proj2 (proj2
           (stop_timer_effect after_start 0%nat (TimerThread.start 25) H1 H2)))))))).
Defined.

(** C6 as the specification has it fails: once the countdown of a
    one-minute task is over the task is still "In Progress", and "Start
    Timer" creates a second thread. *)
Lemma start_timer_after_expiry :
  let a := exec (add_and_start "1" ++ repeat (Tick 0%nat) (4 * 60 + 3)) init in
  existsb in_progress (tasks a) = true /\
  start_timer a <> a /\
  length (pool (start_timer a)) = S (length (pool a)).
Proof.
  vm_compute. repeat split. intros H. discriminate H.
Qed.

(** C6, amended.  In every state a session can reach in which a timer
    thread is alive, [start_timer] changes nothing: task list, threads,
    timer and panel are as they were and no second thread is created;
    so the Enter key on "Start Timer" is a turn without effect. *)
Theorem start_timer_noop_while_alive evs :
  let a := exec evs init in
  existsb TimerThread.is_alive (pool a) = true ->
  start_timer a = a /\
  (forall e, current_option a = 1 -> step (Key KEY_ENTER e) a = a).
Proof.
  intros a Hal.
  pose proof (alive_is_current a (inv_pool _ (inv_reachable evs)) Hal) as Hd.
  assert (Hs : start_timer a = a).
  { destruct (start_timer_cases a) as [[H _]|(task & Hf & _)]; [exact H | congruence]. }
  split; [exact Hs|].
  intros e Ho. simpl. destruct (loop a); try reflexivity.
  unfold on_key. rewrite Ho. simpl. exact Hs.
Qed.

Lemma start_timer_noop_while_alive_witness :
  existsb TimerThread.is_alive (pool (exec (add_and_start "25") init)) = true /\
  start_timer (exec (add_and_start "25") init) = exec (add_and_start "25") init.
Proof.
  assert (H : existsb TimerThread.is_alive (pool (exec (add_and_start "25") init)) = true)
    by reflexivity.
  refine (conj H _).
  exact (proj1 (start_timer_noop_while_alive (add_and_start "25") H)).
Defined.

(** C7 as the specification has it fails: with the timer of scenario B
    running, neither the key [q] nor Enter on "Exit" sets the stop signal
    of the thread; the loop is left and the thread is still alive. *)
Lemma exit_leaves_clock_running :
  let by_q := exec (add_and_start "25" ++ [press KEY_q]) init in
  let by_menu := exec (add_and_start "25"
                       ++ repeat (press KEY_DOWN) 5 ++ [press KEY_ENTER]) init in
  loop by_q = Exited /\ loop by_menu = Exited /\
  option_map TimerThread.stop_event (pool by_q !! 0%nat) = Some false /\
  option_map TimerThread.stop_event (pool by_menu !! 0%nat) = Some false /\
  timer_alive by_q = true /\ timer_alive by_menu = true.
Proof. vm_compute. repeat split. Qed.

(** C7, amended.  The key [q] and Enter on "Exit" both leave the loop of
    [run], after which no key is read any more.  Leaving the loop changes
    nothing else: the threads, among them a running timer and its stop
    signal, the reference to the timer and the task list are what they
    were, and a thread that was running goes on running. *)
Theorem exit_ends_loop_only a e :
  loop a = Looping ->
  step (Key KEY_q e) a = set_loop Exited a /\
  (current_option a = 6 -> step (Key KEY_ENTER e) a = set_loop Exited a) /\
  (forall key e', step (Key key e') (set_loop Exited a) = set_loop Exited a) /\
  pool (set_loop Exited a) = pool a /\
  current_timer (set_loop Exited a) = current_timer a /\
  tasks (set_loop Exited a) = tasks a /\
  (forall tid, pool (step (Tick tid) (set_loop Exited a)) = pool (step (Tick tid) a)).
Proof.
  intros Hl. repeat split.
  - simpl. rewrite Hl. reflexivity.
  - intros Ho. simpl. rewrite Hl. unfold on_key. rewrite Ho. reflexivity.
  - intros tid. simpl. rewrite !tick_pool. reflexivity.
Qed.

Lemma exit_ends_loop_only_witness :
  loop after_start = Looping /\
  step (Key KEY_q (answers "25")) after_start = set_loop Exited after_start.
Proof.
  assert (H : loop after_start = Looping) by reflexivity.
  refine (conj H _).
  exact (proj1 (exit_ends_loop_only after_start (answers "25") H)).
Defined.

End TimerProperties.

(* ===================================================================== *)
(** ** The clock: [TimerThread.run] against [TimerThread.stop] *)

Module ClockProperties.
Import PomodoroApp ThreadFacts Scenario.
Import TimerThread.

(** C5 as the specification has it fails: the thread of a one-minute
    timer passes the loop test, "Pause Timer" then calls [stop()], and
    the next statement of the thread is the callback: the tick 60 is
    delivered, and shown, after [stop()] has returned. *)
Lemma callback_after_stop :
  let before := exec (add_and_start "1"
                      ++ [Tick 0%nat; press KEY_DOWN; press KEY_ENTER]) init in
  let after := PomodoroApp.step (Tick 0%nat) before in
  option_map stop_event (pool before !! 0%nat) = Some true /\
  option_map delivered (pool before !! 0%nat) = Some [] /\
  option_map delivered (pool after !! 0%nat) = Some [60] /\
  timer_win after = Some (1, 0).
Proof. vm_compute. repeat split. Qed.

(** C5, amended.  Let [stop()] be called on a thread at any point of its
    run.  From then on the thread makes at most one more callback: none
    unless it stands between a test and the callback the test has let
    through; that one is still made, by the very next statement of the
    thread, and none after it.  The thread is over within five
    statements.
    The final tick 0 is not delivered when [stop()] comes before the
    test of line 29 has passed.  On a run that nobody stops the ticks
    from the duration down to 1 are delivered, then the final tick 0
    exactly once, and the thread is over. *)
Theorem stop_allows_one_stray_callback minutes n :
  let th := steps n (start minutes) in
  let stopped := stop th in
  (forall m, delivered (steps m stopped) = delivered th \/
             delivered (steps m stopped) = stray th ++ delivered th) /\
  (forall m, delivered (steps (S m) stopped) = stray th ++ delivered th) /\
  (at_pc th = AtCallback ->
   forall m, delivered (steps (S m) stopped) = remaining th :: delivered th) /\
  (at_pc th = AtFinalCallback ->
   forall m, delivered (steps (S m) stopped) = 0 :: delivered th) /\
  (forall m, (length (delivered (steps m stopped)) <= S (length (delivered th)))%nat) /\
  (at_pc th <> AtCallback -> at_pc th <> AtFinalCallback ->
   forall m, delivered (steps m stopped) = delivered th) /\
  (at_pc th <> AtFinalCallback -> at_pc th <> Finished ->
   forall m, ~ In 0 (delivered (steps m stopped))) /\
  is_alive (steps 5 stopped) = false /\
  (let k := Z.to_nat (minutes * 60) in
   delivered (steps (4 * k + 3) (start minutes)) = 0 :: ticks_upto k /\
   Forall (fun r => 0 < r) (ticks_upto k) /\
   forall m, steps (4 * k + 3 + m) (start minutes) = steps (4 * k + 3) (start minutes)).
Proof.
  intros th stopped.
  assert (Hs : stop_event stopped = true) by reflexivity.
  assert (Hd : forall m, delivered (steps m stopped) = delivered th \/
                         delivered (steps m stopped) = stray th ++ delivered th).
  { intros m. exact (stopped_delivers m stopped Hs). }
  pose proof (unstopped_steps n _ (unstopped_start minutes)) as Hun. fold th in Hun.
  assert (He : forall m, delivered (steps (S m) stopped) = stray th ++ delivered th).
  { intros m. exact (stopped_delivers_exact m stopped Hs). }
  split; [exact Hd|]. split; [exact He|].
  split; [intros Hpc m; rewrite He; unfold stray; rewrite Hpc; reflexivity|].
  split; [intros Hpc m; rewrite He; unfold stray; rewrite Hpc; reflexivity|].
  split; [|split; [|split; [|split]]].
  - intros m. destruct (Hd m) as [-> | ->]; [lia|].
    rewrite length_app. unfold stray. destruct (at_pc th); simpl; lia.
  - intros H1 H2 m. destruct (Hd m) as [E|E]; [exact E|].
    rewrite E. unfold stray. destruct (at_pc th); try reflexivity; contradiction.
  - intros H1 H2 m Hin.
    assert (Hpos : Forall (fun r => 0 < r) (stray th ++ delivered th)).
    { apply Forall_app. split; [apply stray_positive; assumption|].
      destruct Hun as (_ & _ & Hl). destruct (at_pc th); try exact Hl. contradiction. }
    assert (Hall : Forall (fun r => 0 < r) (delivered (steps m stopped))).
    { destruct (Hd m) as [-> | ->]; [|exact Hpos].
      apply Forall_app in Hpos. apply Hpos. }
    rewrite List.Forall_forall in Hall. specialize (Hall 0 Hin). lia.
  - apply stopped_ends. exact Hs.
  - cbv zeta. split; [apply delivered_natural|]. split; [apply ticks_upto_pos|].
    intros m. rewrite steps_add. apply steps_finished, finished_natural.
Qed.

Lemma stop_allows_one_stray_callback_witness :
  at_pc (steps 1 (start 1)) = AtCallback /\
  delivered (steps 1 (start 1)) = [] /\
  delivered (steps 4 (stop (steps 1 (start 1)))) = [60] /\
  at_pc (steps 2 (start 1)) <> AtCallback /\
  at_pc (steps 2 (start 1)) <> AtFinalCallback /\
  delivered (steps 3 (stop (steps 2 (start 1)))) = delivered (steps 2 (start 1)).
Proof.
  assert (H0 : at_pc (steps 1 (start 1)) = AtCallback) by reflexivity.
  assert (H1 : at_pc (steps 2 (start 1)) <> AtCallback) by (vm_compute; discriminate).
  assert (H2 : at_pc (steps 2 (start 1)) <> AtFinalCallback) by (vm_compute; discriminate).
  refine (conj H0 (conj eq_refl (conj _ (conj H1 (conj H2 _))))).
  - exact (proj1 (proj2 (proj2 (stop_allows_one_stray_callback 1 1))) H0 3%nat).
  - exact (proj1 (proj2 (proj2 (proj2 (proj2 (proj2
             (stop_allows_one_stray_callback 1 2)))))) H1 H2 3%nat).
Defined.

End ClockProperties.

(* ===================================================================== *)
(** ** Adding tasks *)

Module TaskProperties.
Import PomodoroApp AppFacts Scenario.

(** C4 as the specification has it fails: the durations "0" and "-5" are
    not positive, yet each adds a task. *)
Lemma non_positive_duration_accepted :
  map duration (tasks (exec [add "0"; add "-5"] init)) = [0; -5].
Proof. reflexivity. Qed.

Lemma add_task_language a x y z :
  current_language (add_task x y z a) = current_language a.
Proof. unfold add_task. repeat case_match; reflexivity. Qed.

Lemma add_task_length a x y z :
  0 <= current_language a <= 3 ->
  length (tasks (add_task x y z a))
  = (length (tasks a) + if accepted (x, y, z) then 1 else 0)%nat.
Proof.
  intros Hl. unfold accepted. simpl.
  destruct (add_task_cases x y z a Hl) as [[-> ->]|(d & lang & -> & _ & ->)].
  - lia.
  - simpl. rewrite length_app. reflexivity.
Qed.

Lemma add_all_length inputs : forall a,
  0 <= current_language a <= 3 ->
  length (tasks (add_all inputs a))
  = (length (tasks a) + length (List.filter accepted inputs))%nat.
Proof.
  induction inputs as [|[[x y] z] inputs IH]; intros a Hl; simpl.
  - lia.
  - change (add_all ((x, y, z) :: inputs) a) with (add_all inputs (add_task x y z a)).
    rewrite IH by (rewrite add_task_language; exact Hl).
    rewrite add_task_length by exact Hl.
    destruct (accepted (x, y, z)); simpl; lia.
Qed.

(** [int] on texts at the edge of what it accepts. *)
Lemma int_edge_cases :
  map Py.int ["25"; " 25 "; "+7"; "-5"; "0"; "007"; "1_000"]
  = [Some 25; Some 25; Some 7; Some (-5); Some 0; Some 7; Some 1000] /\
  map Py.int [""; " "; "abc"; "2 5"; "- 5"; "1__0"; "_1"; "1_"; "2.5";
              String (ascii_of_nat 29) "5"; String (ascii_of_nat 31) "5"]
  = repeat None 11.
Proof. split; reflexivity. Qed.

(** C4, amended.  Take a duration text that is ASCII.  In every state a
    session can reach, [add_task] appends one task, "Not Started" and
    with the parsed duration, exactly when [int] accepts the text,
    whatever the sign of the integer; on any other text it returns with
    the application unchanged.  After a run of [add_task] calls on such
    texts the list has grown by the number of calls whose duration text
    [int] accepts. *)
Theorem add_task_accepts_integers evs :
  let a := exec evs init in
  (forall x y z,
      Py.is_ascii z = true -> Py.int z = None -> add_task x y z a = a) /\
  (forall x y z d,
      Py.is_ascii z = true ->
      Py.int z = Some d ->
      exists lang,
        tasks (add_task x y z a)
        = tasks a ++ [{| title := x; description := y; duration := d;
                         language := lang; status := "Not Started" |}]) /\
  (forall x y z,
      Py.is_ascii z = true ->
      (length (tasks (add_task x y z a)) = S (length (tasks a))
       <-> exists d, Py.int z = Some d)) /\
  (forall inputs,
      Forall (fun input => Py.is_ascii (snd input) = true) inputs ->
      length (tasks (add_all inputs a))
      = (length (tasks a) + length (List.filter accepted inputs))%nat).
Proof.
  intros a. pose proof (inv_language _ (inv_reachable evs)) as Hl. fold a in Hl.
  split; [|split; [|split]].
  - intros x y z _ Hz. unfold add_task. rewrite Hz. reflexivity.
  - intros x y z d _ Hz.
    destruct (add_task_cases x y z a Hl) as [[Hn _]|(d' & lang & Hd & _ & ->)];
      [congruence|].
    exists lang. simpl. congruence.
  - intros x y z _. rewrite add_task_length by exact Hl. unfold accepted. simpl.
    destruct (Py.int z) as [d|]; split.
    + intros _. exists d. reflexivity.
    + intros _. lia.
    + intros H. lia.
    + intros [d H]. discriminate.
  - intros inputs _. apply add_all_length. exact Hl.
Qed.

Lemma add_task_accepts_integers_witness :
  Py.is_ascii "abc" = true /\
  Py.int "abc" = None /\
  add_task "Write parser" "impl" "abc" (exec [add "25"] init) = exec [add "25"] init.
Proof.
  assert (H0 : Py.is_ascii "abc" = true) by reflexivity.
  assert (H : Py.int "abc" = None) by reflexivity.
  refine (conj H0 (conj H _)).
  exact (proj1 (add_task_accepts_integers [add "25"]) "Write parser" "impl" "abc" H0 H).
Defined.

End TaskProperties.

(* ===================================================================== *)
(** ** The report generator *)

Module ReportProperties.
Import Report.

Lemma read_day_spec files : forall acc,
  read_day files acc = acc ++ readable_day files.
Proof.
  induction files as [|[file content] files IH]; intros acc; simpl.
  - symmetry. apply app_nil_r.
  - unfold readable_day. simpl. fold (readable_day files).
    destruct (Py.endswith file "_tasks.csv"); [|apply IH].
    destruct content as [df|]; [|apply IH].
    rewrite IH, <- app_assoc. reflexivity.
Qed.

Lemma read_month_spec days : forall acc,
  read_month days acc = acc ++ readable_month days.
Proof.
  induction days as [|[name [|files]] days IH]; intros acc; simpl.
  - symmetry. apply app_nil_r.
  - apply IH.
  - rewrite IH, read_day_spec, <- app_assoc. reflexivity.
Qed.

Lemma read_year_spec months : forall acc,
  read_year months acc = acc ++ readable_year months.
Proof.
  induction months as [|[name [|days]] months IH]; intros acc; simpl.
  - symmetry. apply app_nil_r.
  - apply IH.
  - rewrite IH, read_month_spec, <- app_assoc. reflexivity.
Qed.






End ReportProperties.


(* ===================================================================== *)
(** ** More on the session: what the loop of [run] keeps *)

Module SessionInvariants.
Import PomodoroApp AppFacts ThreadFacts.

(** How the entry of a task can differ between two moments of a session:
    the four fields written by [add_task] are the same, and the status
    is the same or has become "In Progress". *)
Definition evolves (task task' : Task) : Prop :=
  title task' = title task /\
  description task' = description task /\
  duration task' = duration task /\
  language task' = language task /\
  (status task' = status task \/ status task' = "In Progress").

Lemma evolves_refl task : evolves task task.
Proof. repeat split. left. reflexivity. Qed.

Lemma evolves_trans t1 t2 t3 : evolves t1 t2 -> evolves t2 t3 -> evolves t1 t3.
Proof.
  intros (A1 & A2 & A3 & A4 & A5) (B1 & B2 & B3 & B4 & B5).
  repeat split; try congruence.
  destruct B5 as [B5|B5]; [rewrite B5; exact A5 | right; exact B5].
Qed.

Lemma step_keeps_task ev a i task :
  tasks a !! i = Some task ->
  exists task', tasks (step ev a) !! i = Some task' /\ evolves task task'.
Proof.
  intros Hi.
  assert (Hsame : exists task', tasks a !! i = Some task' /\ evolves task task')
    by (exists task; split; [exact Hi | apply evolves_refl]).
  destruct (step_cases ev a) as [T|[tid ->]].
  - destruct T; try exact Hsame.
    + unfold add_task. repeat case_match; try exact Hsame. simpl.
      exists task. split; [apply lookup_app_l_Some; exact Hi | apply evolves_refl].
    + destruct (start_timer_cases a) as [[-> _]|(last & _ & _ & ->)];
        [exact Hsame|]. simpl.
      destruct (decide (pred (length (tasks a)) = i)) as [<-|Hne].
      * exists (with_status "In Progress" task). split.
        -- rewrite list_lookup_alter_eq, Hi. reflexivity.
        -- repeat split. right. reflexivity.
      * exists task. split; [|apply evolves_refl].
        rewrite list_lookup_alter_ne by exact Hne. exact Hi.
    + unfold pause_timer. case_match; exact Hsame.
    + unfold stop_timer. case_match; exact Hsame.
  - destruct (tick_frame tid a) as (-> & _). exact Hsame.
Qed.

(** X2.  The task list is append-only.  Through any sequence of keys and
    thread steps, from any state, a task stays at its position with the
    title, description, duration and language it was given; its status
    either stays or becomes "In Progress", so a task that is "In
    Progress" remains so for the rest of the session; and the list never
    gets shorter. *)
Theorem tasks_append_only evs : forall a i task,
  tasks a !! i = Some task ->
  exists task',
    tasks (exec evs a) !! i = Some task' /\
    evolves task task' /\
    (status task = "In Progress" -> status task' = "In Progress") /\
    (length (tasks a) <= length (tasks (exec evs a)))%nat.
Proof.
  induction evs as [|ev evs IH]; intros a i task Hi.
  - exists task. split; [exact Hi|]. split; [apply evolves_refl|]. split; [auto | reflexivity].
  - destruct (step_keeps_task ev a i task Hi) as (t1 & H1 & E1).
    destruct (IH (step ev a) i t1 H1) as (t2 & H2 & E2 & _ & Hlen).
    exists t2. split; [exact H2|]. split; [eapply evolves_trans; eassumption|].
    split.
    + intros Hs. destruct (evolves_trans _ _ _ E1 E2) as (_ & _ & _ & _ & [H|H]);
        congruence.
    + change (exec (ev :: evs) a) with (exec evs (step ev a)).
      etransitivity; [|exact Hlen].
      clear - a. destruct (step_cases ev a) as [T|[tid ->]].
      * destruct T; try reflexivity.
        -- unfold add_task. repeat case_match; simpl; rewrite ?length_app; simpl; lia.
        -- destruct (start_timer_cases a) as [[-> _]|(last & _ & _ & ->)];
             [reflexivity|]. simpl. rewrite length_alter. reflexivity.
        -- unfold pause_timer. case_match; reflexivity.
        -- unfold stop_timer. case_match; reflexivity.
      * destruct (tick_frame tid a) as (-> & _). reflexivity.
Qed.

Lemma tasks_append_only_witness :
  tasks Scenario.after_add !! 0%nat = Some Scenario.parser_task /\
  exists task',
    tasks (exec [Scenario.press KEY_DOWN; Scenario.press KEY_ENTER] Scenario.after_add)
      !! 0%nat = Some task' /\
    evolves Scenario.parser_task task'.
Proof.
  assert (H : tasks Scenario.after_add !! 0%nat = Some Scenario.parser_task)
    by reflexivity.
  refine (conj H _).
  destruct (tasks_append_only [Scenario.press KEY_DOWN; Scenario.press KEY_ENTER]
              Scenario.after_add 0%nat Scenario.parser_task H)
    as (task' & H1 & H2 & _).
  exists task'. split; assumption.
Defined.

(** X1.  No turn of the loop raises [IndexError]: in every state a
    session can reach [run] is still looping or was left through
    [break], and the three list accesses of the loop, the menu entry,
    the language of a new task and the last task when there is one, find
    an element. *)
Theorem session_never_raises evs :
  let a := exec evs init in
  loop a <> Raised /\
  (exists option, Py.getitem menu_options (current_option a) = Some option) /\
  (exists lang, Py.getitem languages (current_language a) = Some lang) /\
  (tasks a <> [] -> exists task, Py.getitem (tasks a) (-1) = Some task).
Proof.
  intros a. pose proof (inv_reachable evs) as [Ho Hl Hr _ _]. fold a in Ho, Hl, Hr.
  split; [exact Hr|]. split; [|split].
  - assert (E : current_option a = 0 \/ current_option a = 1 \/ current_option a = 2
                \/ current_option a = 3 \/ current_option a = 4 \/ current_option a = 5
                \/ current_option a = 6) by lia.
    destruct E as [E|[E|[E|[E|[E|[E|E]]]]]]; rewrite E; eexists; reflexivity.
  - apply getitem_languages. exact Hl.
  - intros Hne. rewrite getitem_last by exact Hne.
    apply lookup_lt_is_Some_2. destruct (tasks a); [contradiction | simpl; lia].
Qed.

Lemma session_never_raises_witness :
  tasks Scenario.after_start <> [] /\
  exists task, Py.getitem (tasks Scenario.after_start) (-1) = Some task.
Proof.
  assert (H : tasks Scenario.after_start <> []) by (vm_compute; discriminate).
  refine (conj H _).
  exact (proj2 (proj2 (proj2 (session_never_raises (Scenario.add_and_start "25")))) H).
Defined.

Lemma stop_twice (l : list TimerThread.t) i :
  alter TimerThread.stop i (alter TimerThread.stop i l) = alter TimerThread.stop i l.
Proof.
  rewrite list_alter_alter_eq. apply list_alter_ext; [|reflexivity].
  intros th _. reflexivity.
Qed.

(** X3.  "Pause Timer" and "Stop Timer" compose as one would expect of
    setting a flag: each is idempotent, and a stop after a pause, or a
    pause after a stop, leaves the application as a single stop does. *)
Theorem pause_stop_compose a :
  pause_timer (pause_timer a) = pause_timer a /\
  stop_timer (stop_timer a) = stop_timer a /\
  stop_timer (pause_timer a) = stop_timer a /\
  pause_timer (stop_timer a) = stop_timer a.
Proof.
  unfold pause_timer, stop_timer, display_timer.
  destruct (current_timer a) as [i|] eqn:E; simpl; rewrite ?E; simpl;
    [|repeat split; rewrite ?E; reflexivity].
  unfold set_timer_win, set_pool; simpl. rewrite !stop_twice. repeat split.
Qed.

(** X4.  The language selector has period four: in a state the session
    can reach, four presses of [l] bring the application back to the
    state it was in. *)
Theorem language_cycle_period evs e1 e2 e3 e4 :
  let a := exec evs init in
  loop a = Looping ->
  exec [Key KEY_l e1; Key KEY_l e2; Key KEY_l e3; Key KEY_l e4] a = a.
Proof.
  intros a Hloop. pose proof (inv_language _ (inv_reachable evs)) as Hl. fold a in Hl.
  clearbody a. destruct a as [ts p ct co cl tw csv rep lp]. simpl in *. subst lp.
  assert (E : cl = 0 \/ cl = 1 \/ cl = 2 \/ cl = 3) by lia.
  destruct E as [->|[->|[->| ->]]]; reflexivity.
Qed.

Lemma language_cycle_period_witness :
  loop Scenario.after_start = Looping /\
  exec (repeat (Key KEY_l (Scenario.answers "25")) 4) Scenario.after_start
  = Scenario.after_start.
Proof.
  assert (H : loop Scenario.after_start = Looping) by reflexivity.
  refine (conj H _).
  exact (language_cycle_period (Scenario.add_and_start "25")
           (Scenario.answers "25") (Scenario.answers "25")
           (Scenario.answers "25") (Scenario.answers "25") H).
Defined.

Lemma step_keeps_finished ev a tid th :
  pool a !! tid = Some th ->
  TimerThread.is_alive th = false ->
  exists th',
    pool (step ev a) !! tid = Some th' /\
    TimerThread.is_alive th' = false /\
    TimerThread.delivered th' = TimerThread.delivered th /\
    TimerThread.remaining th' = TimerThread.remaining th.
Proof.
  intros Hi Hf.
  assert (Hsame : exists th', pool a !! tid = Some th' /\
                    TimerThread.is_alive th' = false /\
                    TimerThread.delivered th' = TimerThread.delivered th /\
                    TimerThread.remaining th' = TimerThread.remaining th)
    by (exists th; repeat split; assumption).
  assert (Hstop : forall i, exists th',
             alter TimerThread.stop i (pool a) !! tid = Some th' /\
             TimerThread.is_alive th' = false /\
             TimerThread.delivered th' = TimerThread.delivered th /\
             TimerThread.remaining th' = TimerThread.remaining th).
  { intros i. destruct (decide (i = tid)) as [->|Hne].
    - exists (TimerThread.stop th). rewrite list_lookup_alter_eq, Hi.
      repeat split. exact Hf.
    - rewrite list_lookup_alter_ne by exact Hne. exact Hsame. }
  destruct (step_cases ev a) as [T|[tid' ->]].
  - destruct T; try exact Hsame.
    + unfold add_task. repeat case_match; exact Hsame.
    + destruct (start_timer_cases a) as [[-> _]|(last & _ & _ & ->)];
        [exact Hsame|]. simpl.
      exists th. repeat split; try assumption. apply lookup_app_l_Some. exact Hi.
    + unfold pause_timer. case_match; [apply Hstop | exact Hsame].
    + unfold stop_timer. case_match; [apply Hstop | exact Hsame].
  - rewrite tick_pool. destruct (pool a !! tid') as [th2|] eqn:E2; [|exact Hsame].
    destruct (decide (tid' = tid)) as [->|Hne].
    + rewrite Hi in E2. injection E2 as <-.
      rewrite (finished_step th Hf), list_insert_id by exact Hi. exact Hsame.
    + rewrite list_lookup_insert_ne by exact Hne. exact Hsame.
Qed.

(** X5.  A thread that has left [run] never runs again: whatever keys
    are pressed and whatever steps are scheduled afterwards, it stays
    finished, delivers no further tick, and keeps the countdown value it
    ended with. *)
Theorem finished_thread_stays_finished evs : forall a tid th,
  pool a !! tid = Some th ->
  TimerThread.is_alive th = false ->
  exists th',
    pool (exec evs a) !! tid = Some th' /\
    TimerThread.is_alive th' = false /\
    TimerThread.delivered th' = TimerThread.delivered th /\
    TimerThread.remaining th' = TimerThread.remaining th.
Proof.
  induction evs as [|ev evs IH]; intros a tid th Hi Hf.
  - exists th. repeat split; assumption.
  - destruct (step_keeps_finished ev a tid th Hi Hf) as (t1 & H1 & F1 & D1 & R1).
    destruct (IH (step ev a) tid t1 H1 F1) as (t2 & H2 & F2 & D2 & R2).
    exists t2. repeat split; try assumption; congruence.
Qed.

Lemma finished_thread_stays_finished_witness :
  pool (exec (repeat (Tick 0%nat) 3) (exec (Scenario.add_and_start "0") init)) !! 0%nat
  = Some (TimerThread.mk 0 false TimerThread.Finished 0 [0]) /\
  exists th',
    pool (exec [Scenario.press KEY_DOWN; Scenario.press KEY_ENTER; Tick 0%nat]
            (exec (repeat (Tick 0%nat) 3) (exec (Scenario.add_and_start "0") init)))
      !! 0%nat = Some th' /\
    TimerThread.delivered th' = [0].
Proof.
  assert (H : pool (exec (repeat (Tick 0%nat) 3)
                      (exec (Scenario.add_and_start "0") init)) !! 0%nat
              = Some (TimerThread.mk 0 false TimerThread.Finished 0 [0]))
    by reflexivity.
  refine (conj H _).
  destruct (finished_thread_stays_finished
              [Scenario.press KEY_DOWN; Scenario.press KEY_ENTER; Tick 0%nat]
              _ _ _ H eq_refl) as (th' & H1 & _ & H2 & _).
  exists th'. split; assumption.
Defined.

(** X6.  There is no resume.  Start a timer on the last task, let its
    thread run for any number of statements, pause it and let the thread
    end: a new "Start Timer" is accepted and creates a fresh thread that
    counts down from the full duration of the last task, with nothing
    delivered yet; the paused thread is over and is no longer the
    current timer. *)
Theorem pause_then_start_restarts a task n :
  Py.getitem (tasks a) (-1) = Some task ->
  timer_alive a = false ->
  let tid := length (pool a) in
  let paused := exec (repeat (Tick tid) 5)
                  (pause_timer (exec (repeat (Tick tid) n) (start_timer a))) in
  let b := start_timer paused in
  timer_alive paused = false /\
  pool b !! S tid = Some (TimerThread.start (duration task)) /\
  current_timer b = Some (S tid) /\
  length (pool b) = S (S tid) /\
  tasks b = tasks (start_timer a).
Proof.
  intros Hg Hd tid paused b.
  pose proof (start_timer_runs a task Hg Hd) as Es.
  set (a1 := start_timer a) in *.
  assert (E1 : pool a1 !! tid = Some (TimerThread.start (duration task))).
  { rewrite Es. simpl. apply list_lookup_middle. reflexivity. }
  assert (L1 : length (pool a1) = S tid).
  { rewrite Es. simpl. rewrite length_app. simpl. unfold tid. lia. }
  assert (C1 : current_timer a1 = Some tid) by (rewrite Es; reflexivity).
  destruct (exec_ticks tid n a1 _ E1) as (P2 & T2 & C2 & _).
  set (a2 := exec (repeat (Tick tid) n) a1) in *.
  set (th2 := TimerThread.steps n (TimerThread.start (duration task))) in *.
  assert (E3 : pool (pause_timer a2) !! tid = Some (TimerThread.stop th2)).
  { unfold pause_timer. rewrite C2, C1. simpl. rewrite list_lookup_alter_eq, P2.
    rewrite list_lookup_insert_eq by lia. reflexivity. }
  assert (F3 : tasks (pause_timer a2) = tasks a1
               /\ current_timer (pause_timer a2) = Some tid
               /\ length (pool (pause_timer a2)) = S tid).
  { unfold pause_timer. rewrite C2, C1. simpl.
    rewrite length_alter, P2, length_insert. repeat split; auto. congruence. }
  destruct F3 as (T3 & C3 & L3).
  destruct (exec_ticks tid 5 (pause_timer a2) _ E3) as (P4 & T4 & C4 & _).
  fold paused in P4, T4, C4.
  assert (A4 : timer_alive paused = false).
  { unfold timer_alive. rewrite C4, C3, P4, list_lookup_insert_eq by lia.
    apply stopped_ends. reflexivity. }
  assert (L4 : length (pool paused) = S tid) by (rewrite P4, length_insert; exact L3).
  assert (G4 : Py.getitem (tasks paused) (-1) = Some (with_status "In Progress" task)).
  { rewrite T4, T3, Es. simpl.
    pose proof (getitem_Some_nonempty _ _ _ Hg) as Hne.
    rewrite getitem_last in Hg by exact Hne.
    rewrite getitem_last.
    - rewrite length_alter, list_lookup_alter_eq, Hg. reflexivity.
    - intros E. apply (f_equal length) in E. rewrite length_alter in E.
      destruct (tasks a); [contradiction | discriminate]. }
  pose proof (start_timer_runs paused _ G4 A4) as Eb. fold b in Eb.
  split; [exact A4|]. rewrite Eb. simpl. rewrite L4. repeat split.
  - apply list_lookup_middle. symmetry. exact L4.
  - rewrite length_app, L4. simpl. lia.
  - rewrite T4, T3, Es. simpl.
    rewrite length_alter, list_alter_alter_eq. apply list_alter_ext; [|reflexivity].
    intros x _. reflexivity.
Qed.

Lemma pause_then_start_restarts_witness :
  Py.getitem (tasks Scenario.after_add) (-1) = Some Scenario.parser_task /\
  timer_alive Scenario.after_add = false /\
  pool (start_timer
          (exec (repeat (Tick (length (pool Scenario.after_add))) 5)
             (pause_timer
                (exec (repeat (Tick (length (pool Scenario.after_add))) 42)
                   (start_timer Scenario.after_add)))))
    !! S (length (pool Scenario.after_add))
  = Some (TimerThread.start (duration Scenario.parser_task)).
Proof.
  assert (H1 : Py.getitem (tasks Scenario.after_add) (-1) = Some Scenario.parser_task)
    by reflexivity.
  assert (H2 : timer_alive Scenario.after_add = false) by reflexivity.
  refine (conj H1 (conj H2 _)).
  exact (proj1 (proj2
           (pause_then_start_restarts Scenario.after_add Scenario.parser_task 42 H1 H2))).
Defined.

(** The callback of line 25 is only reached with time left. *)
Definition callback_positive (th : TimerThread.t) : Prop :=
  TimerThread.at_pc th = TimerThread.AtCallback -> 0 < TimerThread.remaining th.

(** The panel is empty or shows the minutes and seconds of a time that
    is not negative. *)
Definition panel_ok (w : option (Z * Z)) : Prop :=
  match w with
  | None => True
  | Some (m, s) => exists r, 0 <= r /\ m = r / 60 /\ s = r mod 60
  end.

Lemma callback_positive_step th :
  callback_positive th ->
  callback_positive (fst (TimerThread.step th)) /\
  match snd (TimerThread.step th) with Some r => 0 <= r | None => True end.
Proof.
  unfold callback_positive. destruct th as [d s p r l]. simpl. intros H.
  destruct p; unfold TimerThread.step; simpl.
  - destruct (0 <? r) eqn:E; destruct s; simpl; split; auto; try discriminate.
    intros _. lia.
  - split; [discriminate | specialize (H eq_refl); lia].
  - split; [discriminate | exact I].
  - split; [discriminate | exact I].
  - destruct s; simpl; split; auto; discriminate.
  - split; [discriminate | lia].
  - split; [discriminate | exact I].
Qed.

Lemma panel_ok_display r a : 0 <= r -> panel_ok (timer_win (display_timer r a)).
Proof. intros Hr. simpl. exists r. repeat split. exact Hr. Qed.

Definition panel_inv (a : t) : Prop :=
  Forall callback_positive (pool a) /\ panel_ok (timer_win a).

Lemma panel_inv_reachable evs : panel_inv (exec evs init).
Proof.
  apply reachable_ind.
  - split; [constructor | exact I].
  - intros a b [Hp Hw] T.
    assert (Hstop : forall i, Forall callback_positive (alter TimerThread.stop i (pool a))).
    { intros i. apply Forall_alter; [exact Hp|]. intros th _ H. exact H. }
    destruct T; try (split; assumption).
    + unfold add_task. repeat case_match; split; assumption.
    + destruct (start_timer_cases a) as [[-> _]|(last & _ & _ & ->)];
        [split; assumption|].
      split; [|exact Hw]. simpl. apply Forall_app. split; [exact Hp|].
      repeat constructor. intros H. discriminate H.
    + unfold pause_timer. case_match; split; try assumption. apply Hstop.
    + unfold stop_timer. case_match; [|split; assumption].
      split; [apply Hstop | apply panel_ok_display; lia].
  - intros a tid [Hp Hw]. split.
    + rewrite tick_pool. destruct (pool a !! tid) as [th|] eqn:E; [|exact Hp].
      apply Forall_insert; [exact Hp|].
      apply callback_positive_step. eapply Forall_lookup_1; eassumption.
    + destruct (pool a !! tid) as [th|] eqn:E.
      * rewrite (tick_timer_win _ _ _ E).
        pose proof (Forall_lookup_1 _ _ _ _ Hp E) as Hth.
        destruct (callback_positive_step th Hth) as [_ Hr].
        destruct (snd (TimerThread.step th)) as [r|]; [|exact Hw].
        exists r. repeat split. exact Hr.
      * unfold tick. rewrite E. exact Hw.
Qed.

(** X7.  The timer panel never shows a negative time or a seconds field
    outside 0..59: in every state a session can reach it is empty or
    holds the minutes and seconds of a time [r >= 0], whatever the
    durations of the tasks, zero and negative ones included. *)
Theorem timer_panel_in_range evs :
  match timer_win (exec evs init) with
  | None => True
  | Some (m, s) =>
      0 <= m /\ 0 <= s <= 59 /\ exists r, 0 <= r /\ m = r / 60 /\ s = r mod 60
  end.
Proof.
  destruct (panel_inv_reachable evs) as [_ Hw]. unfold panel_ok in Hw.
  destruct (timer_win (exec evs init)) as [[m s]|]; [|exact I].
  destruct Hw as (r & Hr & -> & ->).
  pose proof (Z.mod_pos_bound r 60). pose proof (Z.div_pos r 60).
  repeat split; try lia. exists r. repeat split. exact Hr.
Qed.

(** The rows last written to the file of the day against the task list:
    one row per task, in order, each with the fields of its task; only
    the status of a row may be behind. *)
Definition file_matches (a : t) : Prop :=
  match csv_file a with
  | None => tasks a = []
  | Some rows => Forall2 evolves rows (tasks a)
  end.

Lemma Forall2_evolves_refl l : Forall2 evolves l l.
Proof. induction l; constructor; [apply evolves_refl | assumption]. Qed.

Lemma Forall2_evolves_alter rows l i :
  Forall2 evolves rows l ->
  Forall2 evolves rows (alter (with_status "In Progress") i l).
Proof.
  intros H. revert i. induction H as [|row task rows l Hrt Hrest IH]; intros i.
  - constructor.
  - destruct i as [|i]; simpl; constructor; auto; [|apply IH].
    destruct Hrt as (A1 & A2 & A3 & A4 & _).
    split; [exact A1|]. split; [exact A2|]. split; [exact A3|]. split; [exact A4|].
    right. reflexivity.
Qed.

(** X8.  The file of the day always lists the whole task list: in every
    state a session can reach, nothing has been written while the list
    is empty, and otherwise the rows last written are the tasks of the
    list, one for one and in order, with their title, description,
    duration and language.  The status of a row can be stale: "Start
    Timer" changes the status of the last task without writing the
    file. *)
Theorem file_lists_every_task evs : file_matches (exec evs init).
Proof.
  apply reachable_ind.
  - reflexivity.
  - intros a b H T. unfold file_matches in *. destruct T; try exact H.
    + unfold add_task. destruct (Py.int z) as [d|]; [|exact H].
      destruct (Py.getitem languages (current_language a)) as [lang|]; [|exact H].
      simpl. apply Forall2_evolves_refl.
    + destruct (start_timer_cases a) as [[-> _]|(last & _ & Hlast & ->)];
        [exact H|]. simpl.
      destruct (csv_file a) as [rows|].
      * apply Forall2_evolves_alter. exact H.
      * rewrite H in Hlast. discriminate.
    + unfold pause_timer. destruct (current_timer a); exact H.
    + unfold stop_timer. destruct (current_timer a); exact H.
  - intros a tid H. unfold file_matches in *.
    destruct (tick_frame tid a) as (-> & _ & _ & _ & -> & _). exact H.
Qed.

End SessionInvariants.


(* ===================================================================== *)
(** ** The clock under any schedule *)

Module ClockSchedule.
Import TimerThread ThreadFacts.





















End ClockSchedule.


(* ===================================================================== *)
(** ** What is drawn: [display_timer], [display_menu], [display_tasks] *)

Module Screen.
Import PomodoroApp.

(** [str(n)] for an integer. *)
Definition str (n : Z) : string := NilZero.string_of_int (Z.to_int n).

(** [format(n, "02d")]: at least two characters, padded with a zero. *)
Definition format_02d (n : Z) : string :=
  if (0 <=? n) && (n <? 10) then "0" +:+ str n else str n.

(** The text [display_timer] puts in the timer panel. *)
Definition timer_text (remaining : Z) : string :=
  let minutes := remaining / 60 in
  let seconds := remaining mod 60 in
  "Time Remaining: " +:+ format_02d minutes +:+ ":" +:+ format_02d seconds.

(** [s[:n]] *)
Definition slice_to (s : string) (n : Z) : string :=
  let len := Z.of_nat (String.length s) in
  let stop := if n <? 0 then Z.max (len + n) 0 else Z.min n len in
  String.substring 0 (Z.to_nat stop) s.

(** One [addstr]: row, column, text, and whether the bold blue
    attribute is on. *)
Record addstr := {
  y : Z;
  x : Z;
  text : string;
  bold : bool
}.

(** [display_menu]: one line per entry of [menu_options]. *)
Definition display_menu (a : t) : list addstr :=
  imap (fun idx option =>
          if Z.of_nat idx =? current_option a
          then {| y := Z.of_nat idx + 1; x := 2; text := "> " +:+ option; bold := true |}
          else {| y := Z.of_nat idx + 1; x := 2; text := "  " +:+ option; bold := false |})
       menu_options.

Definition task_str (task : Task) : string :=
  title task +:+ " | " +:+ str (duration task) +:+ "min | " +:+ language task
  +:+ " | " +:+ status task.

(** The loop of [display_tasks] from position [idx] on, in a window whose
    [getmaxyx()] is [(maxy, maxx)]; it stops at the first position that
    would not fit. *)
Fixpoint task_lines (maxy maxx : Z) (idx : nat) (ts : list Task) : list addstr :=
  match ts with
  | [] => []
  | task :: rest =>
      if Z.of_nat idx >=? maxy - 2 then []
      else {| y := Z.of_nat idx + 1; x := 2;
              text := slice_to (task_str task) (maxx - 4); bold := false |}
           :: task_lines maxy maxx (S idx) rest
  end.

Definition display_tasks (maxy maxx : Z) (a : t) : list addstr :=
  match tasks a with
  | [] => [{| y := 1; x := 2; text := "No tasks yet"; bold := false |}]
  | ts => task_lines maxy maxx 0 ts
  end.

(** Two decimal digits, written out. *)
Definition digit (k : Z) : ascii := ascii_of_nat (48 + Z.to_nat k).

Definition two_digits (n : Z) : string :=
  String (digit (n / 10)) (String (digit (n mod 10)) EmptyString).

End Screen.

Module ScreenFacts.
Import PomodoroApp AppFacts Screen.

Lemma format_02d_below_100 n :
  0 <= n < 100 -> format_02d n = two_digits n.
Proof.
  intros Hn.
  assert (Hall : forallb (fun k => String.eqb (format_02d (Z.of_nat k))
                                     (two_digits (Z.of_nat k)))
                   (seq 0 100) = true) by (vm_compute; reflexivity).
  rewrite forallb_forall in Hall.
  specialize (Hall (Z.to_nat n)). rewrite Z2Nat.id in Hall by lia.
  apply String.eqb_eq, Hall, in_seq. lia.
Qed.

(** X11.  For a remaining time below 100 minutes the timer panel reads
    "Time Remaining: MM:SS": minutes and seconds are two digits each,
    zero-padded, the seconds between 00 and 59, and the text is 21
    characters long. *)
Theorem timer_text_format remaining :
  0 <= remaining < 6000 ->
  timer_text remaining
  = "Time Remaining: " +:+ two_digits (remaining / 60) +:+ ":"
    +:+ two_digits (remaining mod 60) /\
  String.length (timer_text remaining) = 21%nat /\
  0 <= remaining mod 60 <= 59 /\
  (remaining / 60) * 60 + remaining mod 60 = remaining.
Proof.
  intros Hr.
  pose proof (Z.mod_pos_bound remaining 60 ltac:(lia)) as Hs.
  assert (Hm : 0 <= remaining / 60 < 100).
  { split; [apply Z.div_pos; lia | apply Z.div_lt_upper_bound; lia]. }
  assert (E : timer_text remaining
              = "Time Remaining: " +:+ two_digits (remaining / 60) +:+ ":"
                +:+ two_digits (remaining mod 60)).
  { unfold timer_text. cbv zeta.
    rewrite !format_02d_below_100 by lia. reflexivity. }
  split; [exact E|]. split; [rewrite E; reflexivity|]. split; [lia|].
  pose proof (Z.div_mod remaining 60 ltac:(lia)). lia.
Qed.

Lemma timer_text_format_witness :
  0 <= 1490 < 6000 /\
  timer_text 1490 = "Time Remaining: 24:50".
Proof.
  assert (H : 0 <= 1490 < 6000) by lia.
  refine (conj H _).
  exact (proj1 (timer_text_format 1490 H)).
Defined.

(** X12.  The menu shows the selection: in every state a session can
    reach exactly one line of the menu is highlighted, it is the line of
    the entry that Enter would activate, marked with ">", and the seven
    lines keep to rows 1..7 inside the box. *)
Theorem menu_highlights_selection evs :
  let a := exec evs init in
  exists option,
    Py.getitem menu_options (current_option a) = Some option /\
    List.filter bold (display_menu a)
    = [{| y := current_option a + 1; x := 2; text := "> " +:+ option; bold := true |}] /\
    map y (display_menu a) = [1; 2; 3; 4; 5; 6; 7] /\
    Forall (fun line => bold line = false ->
                        exists other, text line = "  " +:+ other /\ In other menu_options)
           (display_menu a).
Proof.
  intros a. pose proof (inv_option _ (inv_reachable evs)) as Ho. fold a in Ho.
  unfold display_menu.
  assert (E : current_option a = 0 \/ current_option a = 1 \/ current_option a = 2
              \/ current_option a = 3 \/ current_option a = 4 \/ current_option a = 5
              \/ current_option a = 6) by lia.
  destruct E as [E|[E|[E|[E|[E|[E|E]]]]]]; rewrite E; eexists;
    (split; [reflexivity|]); (split; [reflexivity|]); (split; [reflexivity|]);
    repeat constructor; simpl; intros H; try discriminate H;
    eexists; (split; [reflexivity|]); simpl; tauto.
Qed.

Lemma length_substring0 s : forall n,
  String.length (String.substring 0 n s) = Nat.min n (String.length s).
Proof.
  induction s as [|c s IH]; intros [|n]; simpl; try reflexivity.
  rewrite IH. reflexivity.
Qed.

Lemma length_slice_to s n :
  0 <= n -> Z.of_nat (String.length (slice_to s n)) <= n.
Proof.
  intros Hn. unfold slice_to.
  destruct (n <? 0) eqn:E; [lia|]. rewrite length_substring0. lia.
Qed.

(** The loop with its [break] is a map over the first [maxy - 2] tasks. *)
Lemma task_lines_spec maxy maxx ts : forall k,
  task_lines maxy maxx k ts
  = imap (fun i task =>
            {| y := Z.of_nat (k + i) + 1; x := 2;
               text := slice_to (task_str task) (maxx - 4); bold := false |})
         (take (Z.to_nat (maxy - 2 - Z.of_nat k)) ts).
Proof.
  induction ts as [|task ts IH]; intros k; simpl.
  - rewrite take_nil. reflexivity.
  - rewrite Z.geb_leb. destruct (maxy - 2 <=? Z.of_nat k) eqn:E.
    + replace (Z.to_nat (maxy - 2 - Z.of_nat k)) with 0%nat by lia. reflexivity.
    + replace (Z.to_nat (maxy - 2 - Z.of_nat k))
        with (S (Z.to_nat (maxy - 2 - Z.of_nat (S k)))) by lia.
      simpl. rewrite Nat.add_0_r. f_equal. rewrite IH.
      apply imap_ext. intros i task' _. simpl.
      replace (S (k + i)) with (k + S i)%nat by lia. reflexivity.
Qed.

(** X13.  [display_tasks] keeps inside the box of its window.  With a
    task list that is not empty it draws the first [maxy - 2] tasks, in
    insertion order, one per row from row 1 on, each cut to [maxx - 4]
    characters: no line is drawn on or below the bottom border, and in a
    window at least 4 columns wide no text reaches the right border. *)
Theorem display_tasks_in_window maxy maxx a :
  tasks a <> [] ->
  display_tasks maxy maxx a
  = imap (fun i task =>
            {| y := Z.of_nat i + 1; x := 2;
               text := slice_to (task_str task) (maxx - 4); bold := false |})
         (take (Z.to_nat (maxy - 2)) (tasks a)) /\
  Forall (fun line =>
            1 <= y line <= maxy - 2 /\ x line = 2 /\
            (4 <= maxx -> x line + Z.of_nat (String.length (text line)) <= maxx - 2))
         (display_tasks maxy maxx a).
Proof.
  intros Hne.
  assert (E : display_tasks maxy maxx a
              = imap (fun i task =>
                        {| y := Z.of_nat i + 1; x := 2;
                           text := slice_to (task_str task) (maxx - 4); bold := false |})
                     (take (Z.to_nat (maxy - 2)) (tasks a))).
  { unfold display_tasks. destruct (tasks a) as [|t0 ts] eqn:Et; [contradiction|].
    rewrite task_lines_spec. rewrite Z.sub_0_r. reflexivity. }
  split; [exact E|]. rewrite E. apply Forall_lookup. intros i line Hi.
  rewrite list_lookup_imap in Hi.
  destruct (take (Z.to_nat (maxy - 2)) (tasks a) !! i) as [task|] eqn:Ht;
    [|discriminate]. simpl in Hi. injection Hi as <-.
  assert (Hlt : (i < Z.to_nat (maxy - 2))%nat).
  { apply lookup_lt_Some in Ht. rewrite length_take in Ht. lia. }
  simpl. split; [lia|]. split; [reflexivity|].
  intros Hw. pose proof (length_slice_to (task_str task) (maxx - 4) ltac:(lia)). lia.
Qed.

Lemma display_tasks_in_window_witness :
  tasks Scenario.after_start <> [] /\
  Forall (fun line =>
            1 <= y line <= 5 - 2 /\ x line = 2 /\
            (4 <= 20 -> x line + Z.of_nat (String.length (text line)) <= 20 - 2))
         (display_tasks 5 20 Scenario.after_start).
Proof.
  assert (H : tasks Scenario.after_start <> []) by (vm_compute; discriminate).
  refine (conj H _).
  exact (proj2 (display_tasks_in_window 5 20 Scenario.after_start H)).
Defined.

End ScreenFacts.


(* ===================================================================== *)
(** ** What is written: [save_to_csv], and how [visualize_data] finds it *)

Module Persistence.
Import PomodoroApp.

(** [datetime.now().date()] *)
Record date := {
  year : Z;
  month : Z;
  day : Z
}.

(** [today.strftime("%B")] *)
Definition month_name (m : Z) : string :=
  match m with
  | 1 => "January" | 2 => "February" | 3 => "March" | 4 => "April"
  | 5 => "May" | 6 => "June" | 7 => "July" | 8 => "August"
  | 9 => "September" | 10 => "October" | 11 => "November" | 12 => "December"
  | _ => ""
  end.

(** [today.strftime('%Y-%m-%d')], for a year of four digits. *)
Definition isoformat (today : date) : string :=
  Screen.str (year today) +:+ "-" +:+ Screen.format_02d (month today)
  +:+ "-" +:+ Screen.format_02d (day today).

(** The name of the file of the day, line 192. *)
Definition csv_filename (today : date) : string := isoformat today +:+ "_tasks.csv".

(** The folders of lines 186-188 below the working directory. *)
Definition day_folder (today : date) : string * string * string :=
  (Screen.str (year today), month_name (month today), Screen.str (day today)).

(** [csv_data], lines 194-203: one row per task. *)
Definition csv_data (today : date) (ts : list Task) : Report.frame :=
  map (fun task =>
         {| Report.Tanggal := (year today, month today, day today);
            Report.Judul := title task;
            Report.Deskripsi := description task;
            Report.Durasi := duration task;
            Report.Bahasa := language task;
            Report.Status := status task |}) ts.

(** What lines 257-260 leave below the year folder: the folder
    "Visualizations" with the image in it. *)
Definition output_folder (yr : Z) : string * Report.month_node :=
  ("Visualizations",
   Report.MonthDir [("TaskVisualization_" +:+ Screen.str yr +:+ ".png", Report.DayOther)]).

End Persistence.

Module PersistenceFacts.
Import Report Persistence.

Lemma substring_all s : String.substring 0 (String.length s) s = s.
Proof. induction s as [|c s IH]; simpl; [reflexivity | rewrite IH; reflexivity]. Qed.

Lemma substring_skip p s n :
  String.substring (String.length p) n (p +:+ s) = String.substring 0 n s.
Proof. induction p as [|c p IH]; simpl; [reflexivity | exact IH]. Qed.

Lemma length_append p s :
  String.length (p +:+ s) = (String.length p + String.length s)%nat.
Proof. induction p as [|c p IH]; simpl; [reflexivity | rewrite IH; reflexivity]. Qed.

Lemma endswith_append p s : Py.endswith (p +:+ s) s = true.
Proof.
  unfold Py.endswith. rewrite length_append.
  replace (String.length p + String.length s - String.length s)%nat
    with (String.length p) by lia.
  rewrite substring_skip, substring_all, String.eqb_refl.
  apply andb_true_iff. split; [apply Nat.leb_le; lia | reflexivity].
Qed.

Lemma readable_day_In files file df :
  Py.endswith file "_tasks.csv" = true ->
  In (file, Some df) files -> In df (readable_day files).
Proof.
  intros He. induction files as [|[f c] files IH]; intros Hin; [contradiction|].
  unfold readable_day in *. simpl.
  destruct Hin as [Hin|Hin].
  - injection Hin as -> ->. rewrite He. left. reflexivity.
  - destruct (Py.endswith f "_tasks.csv"); [destruct c|]; simpl; auto.
Qed.

Lemma readable_month_In days name files df :
  In (name, DayDir files) days -> In df (readable_day files) ->
  In df (readable_month days).
Proof.
  intros Hin Hdf. unfold readable_month. apply in_concat.
  exists (readable_day files). split; [|exact Hdf].
  apply in_map_iff. exists (name, DayDir files). split; [reflexivity | exact Hin].
Qed.

Lemma readable_year_In months name days df :
  In (name, MonthDir days) months -> In df (readable_month days) ->
  In df (readable_year months).
Proof.
  intros Hin Hdf. unfold readable_year. apply in_concat.
  exists (readable_month days). split; [|exact Hdf].
  apply in_map_iff. exists (name, MonthDir days). split; [reflexivity | exact Hin].
Qed.

(** X14.  What [save_to_csv] writes, [visualize_data] finds.  Whatever
    the date, the name given to the file of the day passes the filter of
    the report; so when such a file sits in a day folder of a month
    folder of the year and can be read back, the report is produced and
    every row read from the file is in the frame that is plotted. *)
Theorem saved_file_is_reported today months mname days dname files df :
  In (mname, MonthDir days) months ->
  In (dname, DayDir files) days ->
  In (csv_filename today, Some df) files ->
  Py.endswith (csv_filename today) "_tasks.csv" = true /\
  exists combined_df,
    visualize_data (YearDir months) true = Saved combined_df /\
    forall row, In row df -> In row combined_df.
Proof.
  intros Hm Hd Hf.
  assert (He : Py.endswith (csv_filename today) "_tasks.csv" = true)
    by apply endswith_append.
  split; [exact He|].
  assert (Hin : In df (readable_year months)).
  { eapply readable_year_In; [exact Hm|].
    eapply readable_month_In; [exact Hd|].
    eapply readable_day_In; eassumption. }
  exists (concat (readable_year months)). split.
  - unfold visualize_data. rewrite (ReportProperties.read_year_spec months []). simpl.
    destruct (readable_year months); [contradiction | reflexivity].
  - intros row Hrow. apply in_concat. exists df. split; assumption.
Qed.

(** Scenario A written on 17 May 2024 and read back as written. *)
Lemma saved_file_is_reported_witness :
  let today := {| year := 2024; month := 5; day := 17 |} in
  let df := csv_data today (PomodoroApp.tasks Scenario.after_add) in
  let files := [(csv_filename today, Some df)] in
  let days := [(snd (day_folder today), DayDir files)] in
  let months := [(snd (fst (day_folder today)), MonthDir days)] in
  In (snd (fst (day_folder today)), MonthDir days) months /\
  In (snd (day_folder today), DayDir files) days /\
  In (csv_filename today, Some df) files /\
  Py.endswith (csv_filename today) "_tasks.csv" = true.
Proof.
  intros today df files days months.
  assert (H1 : In (snd (fst (day_folder today)), MonthDir days) months)
    by (left; reflexivity).
  assert (H2 : In (snd (day_folder today), DayDir files) days) by (left; reflexivity).
  assert (H3 : In (csv_filename today, Some df) files) by (left; reflexivity).
  refine (conj H1 (conj H2 (conj H3 _))).
  exact (proj1 (saved_file_is_reported today months _ days _ files df H1 H2 H3)).
Defined.

Lemma readable_year_app l1 l2 :
  readable_year (l1 ++ l2) = readable_year l1 ++ readable_year l2.
Proof. unfold readable_year. rewrite map_app, concat_app. reflexivity. Qed.

Lemma readable_month_flat entries :
  Forall (fun entry => snd entry = DayOther) entries -> readable_month entries = [].
Proof.
  induction 1 as [|[name d] entries Hd _ IH]; [reflexivity|].
  simpl in Hd. subst d. exact IH.
Qed.

(** X15.  A folder of the year that holds no folder adds nothing to the
    report, wherever the listing puts it: the outcome is the one without
    it.  This is the case of the folder "Visualizations" that
    [visualize_data] itself creates, so a report is not disturbed by the
    image of an earlier one. *)
Theorem flat_folder_ignored before after name entries plot_ok :
  Forall (fun entry => snd entry = DayOther) entries ->
  visualize_data (YearDir (before ++ (name, MonthDir entries) :: after)) plot_ok
  = visualize_data (YearDir (before ++ after)) plot_ok.
Proof.
  intros Hflat. unfold visualize_data.
  rewrite !(ReportProperties.read_year_spec _ []). simpl.
  rewrite !readable_year_app.
  change (readable_year ((name, MonthDir entries) :: after))
    with (readable_month entries ++ readable_year after).
  rewrite (readable_month_flat _ Hflat). reflexivity.
Qed.

Lemma flat_folder_ignored_witness :
  Forall (fun entry => snd entry = DayOther)
         [("TaskVisualization_" +:+ Screen.str 2024 +:+ ".png", DayOther)] /\
  visualize_data (YearDir (Scenario.year_2024 ++ [output_folder 2024])) true
  = visualize_data (YearDir (Scenario.year_2024 ++ [])) true.
Proof.
  assert (H : Forall (fun entry => snd entry = DayOther)
                [("TaskVisualization_" +:+ Screen.str 2024 +:+ ".png", DayOther)])
    by (repeat constructor).
  refine (conj H _).
  exact (flat_folder_ignored Scenario.year_2024 [] "Visualizations" _ true H).
Defined.

End PersistenceFacts.
